(** * Temperature systems controller

    A shallow embedding of [temperature_systems_controller.cpp], the ROS2 node
    [TemperatureSystemsControllerNode]: one 16-bit temperature, a query
    service, a randomised increment/decrement service and a "set temperature"
    action server that drives the temperature to a target by calling the
    increment/decrement service in a loop.

    What the middleware does is outside the node's code and is modelled only
    as far as the callbacks see it:
    - [rand()] reads the next entry of a tape of non-negative integers;
    - [goalHandle->is_canceling()] reads the next entry of a tape of booleans;
    - sleeping, sending a service request, publishing feedback and reporting
      the goal's result are recorded as events, in the order they happen;
    - the request the action loop sends to the node's own increment/decrement
      service is answered by running that service's callback;
    - logging is left out. *)

From Stdlib Require Import ZArith NArith List Sorted String Bool Lia.
Import ListNotations.
Local Open Scope Z_scope.

(** ** 16-bit signed integers ([short], [int16]) *)

Module Short.

Definition min : Z := -32768.
Definition max : Z := 32767.

Definition in_range (z : Z) : Prop := min <= z <= max.

(** Conversion of an [int] to [short]: reduction modulo 2^16 into
    [min .. max]. *)
Definition of_int (z : Z) : Z := (z + 32768) mod 65536 - 32768.

End Short.

(** ** Interface messages *)

(** The [.srv] and [.action] interface files are not among the sources; the
    messages below have the fields the callbacks use, with the types the spec
    gives for them. *)

Module GetCurrentTemperature.
Module Response.
(** Modelled from the spec: the query's response, [{value: int16}]. *)
Record t : Type := make { temperature : Z }.
End Response.
End GetCurrentTemperature.

Module IncrementDecrementTemperature.
Module Request.
(** Modelled from the spec: the step's request, [{direction: bool}]. *)
Record t : Type := make { increment : bool }.
End Request.
Module Response.
(** Modelled from the spec: the step's response,
    [{success: bool, value: int16, message: string}]. *)
Record t : Type := make { success : bool; temperature : Z; message : string }.
End Response.
End IncrementDecrementTemperature.

Module SetTemperature.
Module Goal.
(** Modelled from the spec: the task's input, [{target: int16}]. *)
Record t : Type := make { temperature : Z }.
End Goal.
Module Feedback.
(** Modelled from the spec: a feedback event, [{value: int16, progress: int}]. *)
Record t : Type := make { temperature : Z; progress : Z }.
(** [std::make_shared<SetTemperature::Feedback>()]: fields zeroed. *)
Definition default : t := make 0 0.
End Feedback.
Module Result.
(** Modelled from the spec: the terminal result, [{value: int16}]. *)
Record t : Type := make { temperature : Z }.
(** [std::make_shared<SetTemperature::Result>()]: fields zeroed. *)
Definition default : t := make 0.
End Result.
End SetTemperature.

(** [rclcpp_action::GoalResponse] and [rclcpp_action::CancelResponse]. *)
Module GoalResponse.
Inductive t : Type := REJECT | ACCEPT_AND_EXECUTE | ACCEPT_AND_DEFER.
End GoalResponse.

Module CancelResponse.
Inductive t : Type := REJECT | ACCEPT.
End CancelResponse.

Definition GoalUUID : Type := list Byte.byte.

Record ServerGoalHandle : Type := { get_goal : SetTemperature.Goal.t }.

(** ** State, environment and events *)

(** The node's two mutable members, and how far the two tapes were read. *)
Record State : Type := mkState {
  current_temperature : Z;
  action_server_busy : bool;
  rand_calls : nat;
  is_canceling_calls : nat
}.

Record Env : Type := {
  rand_results : nat -> N;
  is_canceling_results : nat -> bool
}.

Inductive Event : Type :=
| SleepFor (milliseconds : Z)
| Publish (data : Z)
| SendRequest (request : IncrementDecrementTemperature.Request.t)
| PublishFeedback (feedback : SetTemperature.Feedback.t)
| GoalCanceled (result : SetTemperature.Result.t)
| GoalSucceed (result : SetTemperature.Result.t).

(** A callback maps the state to a value, the new state and the events it
    caused. *)
Definition M (A : Type) : Type := State -> A * State * list Event.

Definition ret {A : Type} (a : A) : M A := fun s => (a, s, []).

Definition bind {A B : Type} (m : M A) (f : A -> M B) : M B :=
  fun s =>
    let '(a, s1, e1) := m s in
    let '(b, s2, e2) := f a s1 in
    (b, s2, e1 ++ e2).

Declare Scope ctrl_scope.
Delimit Scope ctrl_scope with ctrl.
Notation "x <- m ;; k" := (bind m (fun x => k))
  (at level 61, m at next level, right associativity) : ctrl_scope.
Notation "m ;; k" := (bind m (fun _ => k))
  (at level 61, right associativity) : ctrl_scope.
Local Open Scope ctrl_scope.

Definition emit (e : Event) : M unit := fun s => (tt, s, [e]).

Definition get_current_temperature : M Z :=
  fun s => (current_temperature s, s, []).

Definition set_current_temperature (t : Z) : M unit :=
  fun s => (tt, mkState t (action_server_busy s) (rand_calls s) (is_canceling_calls s), []).

Definition get_action_server_busy : M bool :=
  fun s => (action_server_busy s, s, []).

Definition set_action_server_busy (b : bool) : M unit :=
  fun s => (tt, mkState (current_temperature s) b (rand_calls s) (is_canceling_calls s), []).

(** Truncating integer division of C++, undefined for a zero divisor. *)
Definition int_div (a b : Z) : option Z :=
  if b =? 0 then None else Some (Z.quot a b).

(** [bool b = n;] *)
Definition bool_of_int (n : Z) : bool := negb (n =? 0).

Section Node.

Variable env : Env.

Definition rand : M Z :=
  fun s => (Z.of_N (rand_results env (rand_calls s)),
            mkState (current_temperature s) (action_server_busy s)
                    (S (rand_calls s)) (is_canceling_calls s),
            []).

Definition is_canceling (goalHandle : ServerGoalHandle) : M bool :=
  fun s => (is_canceling_results env (is_canceling_calls s),
            mkState (current_temperature s) (action_server_busy s)
                    (rand_calls s) (S (is_canceling_calls s)),
            []).

Definition sleep_for (milliseconds : Z) : M unit := emit (SleepFor milliseconds).

(** The constructor, as far as the members are concerned; [main] builds the
    node first, so no [rand()] result was consumed before. *)
Definition TemperatureSystemsControllerNode : State :=
  let r := Z.of_N (rand_results env 0) in
  mkState (Short.of_int (Z.rem r 85 + 15)) false 1 0.

Definition temperature_monitor_callback : M unit :=
  data <- get_current_temperature ;;
  emit (Publish data).

Definition get_current_temperature_callback
  : M GetCurrentTemperature.Response.t :=
  t <- get_current_temperature ;;
  ret (GetCurrentTemperature.Response.make t).

Definition increment_decrement_temperature_callback
    (request : IncrementDecrementTemperature.Request.t)
  : M IncrementDecrementTemperature.Response.t :=
  let is_increment := IncrementDecrementTemperature.Request.increment request in
  r <- rand ;;
  let can_increase_temperature := bool_of_int (Z.rem r 2) in
  if negb can_increase_temperature then
    t <- get_current_temperature ;;
    ret (IncrementDecrementTemperature.Response.make false t
           (String.append "Temperature cannot be "
              (if is_increment then "increased" else "decreased")))
  else
    d <- rand ;;
    sleep_for (Z.rem d 400 + 100) ;;
    t <- get_current_temperature ;;
    set_current_temperature (Short.of_int (t + (if is_increment then 1 else -1))) ;;
    t' <- get_current_temperature ;;
    ret (IncrementDecrementTemperature.Response.make true t'
           (String.append
              (String.append "Temperature "
                 (if is_increment then "increased" else "decreased"))
              " successfully")).

Definition handle_set_temperature_action_callback
    (uuid : GoalUUID) (goal : SetTemperature.Goal.t) : M GoalResponse.t :=
  busy <- get_action_server_busy ;;
  if busy then ret GoalResponse.REJECT
  else
    set_action_server_busy true ;;
    ret GoalResponse.ACCEPT_AND_EXECUTE.

Definition cancel_set_temperature_action_callback
    (goalHandle : ServerGoalHandle) : M CancelResponse.t :=
  ret CancelResponse.ACCEPT.

(** Local variables of [accepted_set_temperature_action_callback]. *)
Record Locals : Type := mkLocals {
  feedback : SetTemperature.Feedback.t;
  result : SetTemperature.Result.t;
  target_temperature : Z;
  initial_temperature : Z;
  _current_temperature : Z;
  is_increment : bool
}.

(** How one pass through the loop body ends: at the end of the body, by the
    [return] of the cancellation branch, or in the undefined behaviour of a
    division by zero. *)
Inductive Flow : Type :=
| Next (l : Locals)
| Return
| DivisionByZero.

Definition loop_body (goalHandle : ServerGoalHandle) (l : Locals) : M Flow :=
  canceling <- is_canceling goalHandle ;;
  if canceling then
    let result := SetTemperature.Result.make (_current_temperature l) in
    emit (GoalCanceled result) ;;
    set_action_server_busy false ;;
    ret Return
  else
    let request := IncrementDecrementTemperature.Request.make (is_increment l) in
    emit (SendRequest request) ;;
    response <- increment_decrement_temperature_callback request ;;
    let _current_temperature :=
      IncrementDecrementTemperature.Response.temperature response in
    match int_div ((_current_temperature - initial_temperature l) * 100)
                  (target_temperature l - initial_temperature l) with
    | None => ret DivisionByZero
    | Some progress =>
        let feedback := SetTemperature.Feedback.make _current_temperature progress in
        emit (PublishFeedback feedback) ;;
        ret (Next (mkLocals feedback (result l) (target_temperature l)
                     (initial_temperature l) _current_temperature (is_increment l)))
    end.

(** [while (_current_temperature != target_temperature) { ... }], run for at
    most [fuel] passes.  [None]: the loop is still running after [fuel]
    passes; [Some (Next l)]: the condition became false with locals [l]. *)
Fixpoint while_loop (fuel : nat) (goalHandle : ServerGoalHandle) (l : Locals)
  : M (option Flow) :=
  if _current_temperature l =? target_temperature l then ret (Some (Next l))
  else
    match fuel with
    | O => ret None
    | S fuel' =>
        flow <- loop_body goalHandle l ;;
        match flow with
        | Next l' => while_loop fuel' goalHandle l'
        | Return => ret (Some Return)
        | DivisionByZero => ret (Some DivisionByZero)
        end
    end.

(** How the action callback ends. *)
Inductive Exit : Type :=
| ExitSucceeded
| ExitCanceled
| ExitUndefined.

Definition accepted_locals (goalHandle : ServerGoalHandle) : M Locals :=
  let goal := get_goal goalHandle in
  let target_temperature := SetTemperature.Goal.temperature goal in
  initial_temperature <- get_current_temperature ;;
  _current_temperature <- get_current_temperature ;;
  current <- get_current_temperature ;;
  ret (mkLocals SetTemperature.Feedback.default SetTemperature.Result.default
         target_temperature initial_temperature _current_temperature
         (current <? target_temperature)).

Definition accepted_set_temperature_action_callback
    (fuel : nat) (goalHandle : ServerGoalHandle) : M (option Exit) :=
  l <- accepted_locals goalHandle ;;
  flow <- while_loop fuel goalHandle l ;;
  match flow with
  | None => ret None
  | Some (Next l) =>
      let result := SetTemperature.Result.make (_current_temperature l) in
      emit (GoalSucceed result) ;;
      set_action_server_busy false ;;
      ret (Some ExitSucceeded)
  | Some Return => ret (Some ExitCanceled)
  | Some DivisionByZero => ret (Some ExitUndefined)
  end.

End Node.

(** ** Vocabulary for the properties *)

(** [!can_increase_temperature], for the [rand()] result [r]. *)
Definition refuses (r : N) : bool := negb (bool_of_int (Z.rem (Z.of_N r) 2)).

(** The argument of [sleep_for], for the [rand()] result [d]. *)
Definition sleep_milliseconds (d : N) : Z := Z.rem (Z.of_N d) 400 + 100.

(** The state after [n] more calls of [rand()]. *)
Definition after_rand (n : nat) (s : State) : State :=
  mkState (current_temperature s) (action_server_busy s)
          (n + rand_calls s) (is_canceling_calls s).

(** The state after one more call of [is_canceling()]. *)
Definition after_poll (s : State) : State :=
  mkState (current_temperature s) (action_server_busy s)
          (rand_calls s) (S (is_canceling_calls s)).

Definition with_temperature (t : Z) (s : State) : State :=
  mkState t (action_server_busy s) (rand_calls s) (is_canceling_calls s).

Definition with_busy (b : bool) (s : State) : State :=
  mkState (current_temperature s) b (rand_calls s) (is_canceling_calls s).

(** [is_increment ? 1 : -1] *)
Definition delta (is_increment : bool) : Z := if is_increment then 1 else -1.

Definition refusal_message (is_increment : bool) : string :=
  String.append "Temperature cannot be "
    (if is_increment then "increased" else "decreased").

Definition success_message (is_increment : bool) : string :=
  String.append
    (String.append "Temperature " (if is_increment then "increased" else "decreased"))
    " successfully".

(** Projections of what a callback returns. *)
Definition value_of {A : Type} (r : A * State * list Event) : A := fst (fst r).
Definition state_of {A : Type} (r : A * State * list Event) : State := snd (fst r).
Definition events_of {A : Type} (r : A * State * list Event) : list Event := snd r.

(** The [rand()] results [0 .. n-1]. *)
Definition rand_range (n : nat) : list N := map N.of_nat (seq 0 n).

(** The feedback messages published. *)
Fixpoint published_feedback (es : list Event) : list SetTemperature.Feedback.t :=
  match es with
  | [] => []
  | PublishFeedback f :: es' => f :: published_feedback es'
  | _ :: es' => published_feedback es'
  end.

(** The temperatures and the progress values of the feedback events. *)
Fixpoint feedback_temperatures (es : list Event) : list Z :=
  match es with
  | [] => []
  | PublishFeedback f :: es' =>
      SetTemperature.Feedback.temperature f :: feedback_temperatures es'
  | _ :: es' => feedback_temperatures es'
  end.

Fixpoint feedback_progresses (es : list Event) : list Z :=
  match es with
  | [] => []
  | PublishFeedback f :: es' =>
      SetTemperature.Feedback.progress f :: feedback_progresses es'
  | _ :: es' => feedback_progresses es'
  end.

(** The requests sent to the step service. *)
Fixpoint sent_requests (es : list Event) : list IncrementDecrementTemperature.Request.t :=
  match es with
  | [] => []
  | SendRequest r :: es' => r :: sent_requests es'
  | _ :: es' => sent_requests es'
  end.

(** [(_current_temperature - initial_temperature) * 100 /
     (target_temperature - initial_temperature)], for a non-zero divisor. *)
Definition progress_of (l : Locals) (t : Z) : Z :=
  Z.quot ((t - initial_temperature l) * 100)
         (target_temperature l - initial_temperature l).

(** The locals at the end of a pass whose step response carried [t]. *)
Definition next_locals (l : Locals) (t : Z) : Locals :=
  mkLocals (SetTemperature.Feedback.make t (progress_of l t)) (result l)
           (target_temperature l) (initial_temperature l) t (is_increment l).

(** Order in the direction of the task. *)
Definition toward (is_increment : bool) (a b : Z) : Prop :=
  if is_increment then a <= b else b <= a.

(** One observed value after another: a stall, or one unit in the direction
    of the task. *)
Definition approach (is_increment : bool) (a b : Z) : Prop :=
  b = a \/ b = a + delta is_increment.

(** What holds of the locals and the node at the loop condition. *)
Record task_inv (l : Locals) (s : State) : Prop := {
  inv_current : _current_temperature l = current_temperature s;
  inv_range : Short.in_range (current_temperature s);
  inv_target : Short.in_range (target_temperature l);
  inv_divisor : target_temperature l <> initial_temperature l;
  inv_from : toward (is_increment l) (initial_temperature l) (_current_temperature l);
  inv_to : toward (is_increment l) (_current_temperature l) (target_temperature l)
}.

(** The locals when the loop is reached from state [s]. *)
Definition initial_locals (goalHandle : ServerGoalHandle) (s : State) : Locals :=
  mkLocals SetTemperature.Feedback.default SetTemperature.Result.default
           (SetTemperature.Goal.temperature (get_goal goalHandle))
           (current_temperature s) (current_temperature s)
           (current_temperature s <? SetTemperature.Goal.temperature (get_goal goalHandle)).

(** The local copy of the temperature agrees with the node's, and the divisor
    of the progress is not zero. *)
Definition in_step (l : Locals) (s : State) : Prop :=
  _current_temperature l = current_temperature s
  /\ target_temperature l <> initial_temperature l.

(** ** Sample environments and inputs *)

Definition tape {A : Type} (l : list A) (d : A) : nat -> A := fun n => nth n l d.

(** Every step is refused, nobody cancels. *)
Definition env_refusing : Env :=
  {| rand_results := fun _ => 0%N; is_canceling_results := fun _ => false |}.

(** No step is refused, nobody cancels. *)
Definition env_willing : Env :=
  {| rand_results := fun _ => 7%N; is_canceling_results := fun _ => false |}.

(** Refusals and steps mixed; a cancellation shows at the third poll. *)
Definition env_mixed : Env :=
  {| rand_results := tape [3; 1; 7; 2; 4; 5; 9; 1; 1]%N 1%N;
     is_canceling_results := tape [false; false; true] true |}.

(** Refusals and steps mixed, nobody cancels. *)
Definition env_stalling : Env :=
  {| rand_results := tape [3; 1; 7; 2; 4; 5; 9; 1; 1]%N 1%N;
     is_canceling_results := fun _ => false |}.

Definition goal_handle (target : Z) : ServerGoalHandle :=
  {| get_goal := SetTemperature.Goal.make target |}.

Definition step_request (is_increment : bool) : IncrementDecrementTemperature.Request.t :=
  IncrementDecrementTemperature.Request.make is_increment.

(** ** The callbacks as the executor invokes them *)

(** The callbacks the constructor registers.  The action callback comes with
    the number of passes its loop is given; the executor invokes it for a goal
    that the goal callback accepted, which the sequences below do not
    require. *)
Inductive Callback : Type :=
| TimerCallback
| GetCurrentTemperatureCallback
| IncrementDecrementTemperatureCallback
    (request : IncrementDecrementTemperature.Request.t)
| GoalCallback (uuid : GoalUUID) (goal : SetTemperature.Goal.t)
| CancelCallback (goalHandle : ServerGoalHandle)
| AcceptedCallback (fuel : nat) (goalHandle : ServerGoalHandle).

Definition invoke (env : Env) (c : Callback) : M unit :=
  match c with
  | TimerCallback => temperature_monitor_callback
  | GetCurrentTemperatureCallback =>
      _ <- get_current_temperature_callback ;; ret tt
  | IncrementDecrementTemperatureCallback request =>
      _ <- increment_decrement_temperature_callback env request ;; ret tt
  | GoalCallback uuid goal =>
      _ <- handle_set_temperature_action_callback uuid goal ;; ret tt
  | CancelCallback goalHandle =>
      _ <- cancel_set_temperature_action_callback goalHandle ;; ret tt
  | AcceptedCallback fuel goalHandle =>
      _ <- accepted_set_temperature_action_callback env fuel goalHandle ;; ret tt
  end.

Fixpoint invoke_all (env : Env) (cs : list Callback) : M unit :=
  match cs with
  | [] => ret tt
  | c :: cs' => invoke env c ;; invoke_all env cs'
  end.

(** ** More vocabulary: what a trace contains *)

(** The durations slept, one for each step performed. *)
Fixpoint sleeps (es : list Event) : list Z :=
  match es with
  | [] => []
  | SleepFor ms :: es' => ms :: sleeps es'
  | _ :: es' => sleeps es'
  end.

(** The data the monitor timer published. *)
Fixpoint published_data (es : list Event) : list Z :=
  match es with
  | [] => []
  | Publish data :: es' => data :: published_data es'
  | _ :: es' => published_data es'
  end.

(** The goal results reported, by [canceled] or by [succeed]. *)
Fixpoint goal_reports (es : list Event) : list Event :=
  match es with
  | [] => []
  | GoalCanceled result :: es' => GoalCanceled result :: goal_reports es'
  | GoalSucceed result :: es' => GoalSucceed result :: goal_reports es'
  | _ :: es' => goal_reports es'
  end.

Definition total (l : list Z) : Z := fold_right Z.add 0 l.

(** One more cancellation poll than requests when the loop left by the
    cancellation branch. *)
Definition cancel_polls (o : option Flow) : nat :=
  match o with
  | Some Return => 1
  | _ => 0
  end.

(** ** Vocabulary for the step service on its own *)

(** Whether the step service answers a request with a refusal. *)
Definition step_is_refused (env : Env)
    (request : IncrementDecrementTemperature.Request.t) (s : State) : bool :=
  negb (IncrementDecrementTemperature.Response.success
          (value_of (increment_decrement_temperature_callback env request s))).

(** The environment in which the next [rand()] call in state [s] gives [r]. *)
Definition with_next_draw (env : Env) (s : State) (r : N) : Env :=
  {| rand_results := fun n => if Nat.eqb n (rand_calls s) then r
                              else rand_results env n;
     is_canceling_results := is_canceling_results env |}.

(** The step service serving the given requests one after the other, and
    nothing else. *)
Fixpoint serve_requests (env : Env)
    (requests : list IncrementDecrementTemperature.Request.t) : M unit :=
  match requests with
  | [] => ret tt
  | request :: requests' =>
      _ <- increment_decrement_temperature_callback env request ;;
      serve_requests env requests'
  end.

(** No step refused, sleep draws even, nobody cancels. *)
Definition env_even_sleeps : Env :=
  {| rand_results := fun n => if Nat.even n then 1%N else 0%N;
     is_canceling_results := fun _ => false |}.

(** * Properties *)

(** ** 16-bit arithmetic *)

Lemma of_int_in_range (z : Z) : Short.in_range (Short.of_int z).
Proof.
  unfold Short.in_range, Short.of_int, Short.min, Short.max.
  pose proof (Z.mod_pos_bound (z + 32768) 65536 eq_refl). lia.
Qed.

Lemma of_int_id (z : Z) : Short.in_range z -> Short.of_int z = z.
Proof.
  unfold Short.in_range, Short.of_int, Short.min, Short.max. intros H.
  rewrite Z.mod_small by lia. lia.
Qed.

Lemma rem_nonneg_bound (r : N) (m : Z) :
  0 < m -> 0 <= Z.rem (Z.of_N r) m < m.
Proof.
  intros Hm. apply Z.rem_bound_pos; lia.
Qed.

Lemma refuses_even (r : N) : refuses r = N.even r.
Proof.
  unfold refuses, bool_of_int. rewrite negb_involutive.
  rewrite Z.rem_mod_nonneg by lia.
  change 2 with (Z.of_N 2). rewrite <- N2Z.inj_mod.
  destruct (N.even r) eqn:E.
  - apply N.even_spec in E. destruct E as [k ->].
    rewrite N.mul_comm, N.Div0.mod_mul. reflexivity.
  - assert (O : N.odd r = true) by (rewrite <- N.negb_even, E; reflexivity).
    apply N.odd_spec in O. destruct O as [k ->].
    rewrite N.add_comm, N.mul_comm, N.Div0.mod_add. reflexivity.
Qed.

(** ** The step service *)

Lemma step_refused env request s :
  refuses (rand_results env (rand_calls s)) = true ->
  increment_decrement_temperature_callback env request s =
    (IncrementDecrementTemperature.Response.make false (current_temperature s)
       (refusal_message (IncrementDecrementTemperature.Request.increment request)),
     after_rand 1 s, []).
Proof.
  intros H. unfold increment_decrement_temperature_callback, bind, rand.
  unfold refuses in H. rewrite H. reflexivity.
Qed.

Lemma step_performed env request s :
  refuses (rand_results env (rand_calls s)) = false ->
  let inc := IncrementDecrementTemperature.Request.increment request in
  let t' := Short.of_int (current_temperature s + delta inc) in
  increment_decrement_temperature_callback env request s =
    (IncrementDecrementTemperature.Response.make true t' (success_message inc),
     with_temperature t' (after_rand 2 s),
     [SleepFor (sleep_milliseconds (rand_results env (S (rand_calls s))))]).
Proof.
  intros H. unfold increment_decrement_temperature_callback, bind, rand.
  unfold refuses in H. rewrite H. reflexivity.
Qed.

(** ** One pass through the loop body *)

Lemma loop_body_canceling env goalHandle l s :
  is_canceling_results env (is_canceling_calls s) = true ->
  loop_body env goalHandle l s =
    (Return, with_busy false (after_poll s),
     [GoalCanceled (SetTemperature.Result.make (_current_temperature l))]).
Proof.
  intros H. unfold loop_body, bind, is_canceling. rewrite H. reflexivity.
Qed.

Lemma loop_body_stepping env goalHandle l s :
  is_canceling_results env (is_canceling_calls s) = false ->
  target_temperature l <> initial_temperature l ->
  loop_body env goalHandle l s =
    let request := IncrementDecrementTemperature.Request.make (is_increment l) in
    let '(response, s1, es) :=
      increment_decrement_temperature_callback env request (after_poll s) in
    let t := IncrementDecrementTemperature.Response.temperature response in
    (Next (next_locals l t), s1,
     SendRequest request :: es
       ++ [PublishFeedback (SetTemperature.Feedback.make t (progress_of l t))]).
Proof.
  intros H Hne. unfold loop_body, bind, is_canceling. rewrite H.
  cbn [emit]. fold (after_poll s).
  destruct (increment_decrement_temperature_callback env _ (after_poll s))
    as [[response s1] es].
  unfold int_div.
  destruct (Z.eqb_spec (target_temperature l - initial_temperature l) 0) as [E|E];
    [lia|].
  reflexivity.
Qed.

(** ** Unfolding the loop *)

Lemma while_loop_exit env fuel goalHandle l s :
  _current_temperature l = target_temperature l ->
  while_loop env fuel goalHandle l s = (Some (Next l), s, []).
Proof.
  intros H. destruct fuel; simpl; rewrite H, Z.eqb_refl; reflexivity.
Qed.

Lemma while_loop_out_of_fuel env goalHandle l s :
  _current_temperature l <> target_temperature l ->
  while_loop env 0 goalHandle l s = (None, s, []).
Proof.
  intros H. simpl. destruct (Z.eqb_spec (_current_temperature l) (target_temperature l));
    [contradiction | reflexivity].
Qed.

Lemma while_loop_pass env fuel goalHandle l s :
  _current_temperature l <> target_temperature l ->
  while_loop env (S fuel) goalHandle l s =
    let '(flow, s1, e1) := loop_body env goalHandle l s in
    match flow with
    | Next l' =>
        let '(o, s2, e2) := while_loop env fuel goalHandle l' s1 in
        (o, s2, e1 ++ e2)
    | Return => (Some Return, s1, e1)
    | DivisionByZero => (Some DivisionByZero, s1, e1)
    end.
Proof.
  intros H. simpl.
  destruct (Z.eqb_spec (_current_temperature l) (target_temperature l));
    [contradiction|].
  unfold bind. destruct (loop_body env goalHandle l s) as [[flow s1] e1].
  destruct flow; cbn; rewrite ?app_nil_r; reflexivity.
Qed.

Lemma while_loop_canceled env fuel goalHandle l s :
  _current_temperature l <> target_temperature l ->
  is_canceling_results env (is_canceling_calls s) = true ->
  while_loop env (S fuel) goalHandle l s =
    (Some Return, with_busy false (after_poll s),
     [GoalCanceled (SetTemperature.Result.make (_current_temperature l))]).
Proof.
  intros Hne Hc. rewrite while_loop_pass by assumption.
  rewrite loop_body_canceling by assumption. reflexivity.
Qed.

Lemma while_loop_refused env fuel goalHandle l s :
  _current_temperature l <> target_temperature l ->
  is_canceling_results env (is_canceling_calls s) = false ->
  target_temperature l <> initial_temperature l ->
  refuses (rand_results env (rand_calls s)) = true ->
  while_loop env (S fuel) goalHandle l s =
    let t := current_temperature s in
    let '(o, s2, e2) :=
      while_loop env fuel goalHandle (next_locals l t) (after_rand 1 (after_poll s)) in
    (o, s2,
     SendRequest (IncrementDecrementTemperature.Request.make (is_increment l))
       :: PublishFeedback (SetTemperature.Feedback.make t (progress_of l t))
       :: e2).
Proof.
  intros Hne Hc Hd Hr. rewrite while_loop_pass by assumption.
  rewrite loop_body_stepping by assumption. cbv zeta.
  rewrite step_refused by exact Hr. reflexivity.
Qed.

Lemma while_loop_performed env fuel goalHandle l s :
  _current_temperature l <> target_temperature l ->
  is_canceling_results env (is_canceling_calls s) = false ->
  target_temperature l <> initial_temperature l ->
  refuses (rand_results env (rand_calls s)) = false ->
  while_loop env (S fuel) goalHandle l s =
    let t := Short.of_int (current_temperature s + delta (is_increment l)) in
    let '(o, s2, e2) :=
      while_loop env fuel goalHandle (next_locals l t)
        (with_temperature t (after_rand 2 (after_poll s))) in
    (o, s2,
     SendRequest (IncrementDecrementTemperature.Request.make (is_increment l))
       :: SleepFor (sleep_milliseconds (rand_results env (S (rand_calls s))))
       :: PublishFeedback (SetTemperature.Feedback.make t (progress_of l t))
       :: e2).
Proof.
  intros Hne Hc Hd Hr. rewrite while_loop_pass by assumption.
  rewrite loop_body_stepping by assumption. cbv zeta.
  rewrite step_performed by exact Hr. reflexivity.
Qed.

(** Case analysis on how a run of the loop starts: without fuel, and with
    fuel for one more pass (the divisor is known to be non-zero). *)
Ltac loop_base l :=
  destruct (Z.eq_dec (_current_temperature l) (target_temperature l)) as [Heq|Hne];
  [ rewrite while_loop_exit by assumption
  | rewrite while_loop_out_of_fuel by assumption ].

Ltac loop_pass env fuel l s :=
  destruct (Z.eq_dec (_current_temperature l) (target_temperature l)) as [Heq|Hne];
  [ rewrite while_loop_exit by assumption
  | destruct (is_canceling_results env (is_canceling_calls s)) eqn:Hcancel;
    [ rewrite while_loop_canceled by assumption
    | destruct (refuses (rand_results env (rand_calls s))) eqn:Hrefuse;
      [ rewrite while_loop_refused by assumption
      | rewrite while_loop_performed by assumption ];
      cbv zeta;
      match goal with
      | |- context [while_loop env fuel ?g ?l' ?s'] =>
          destruct (while_loop env fuel g l' s') as [[o2 s2] e2] eqn:Hrest
      end ] ].

(** ** The busy flag and the loop *)

Lemma while_loop_busy env goalHandle fuel :
  forall l s o s' es,
    target_temperature l <> initial_temperature l ->
    while_loop env fuel goalHandle l s = (o, s', es) ->
    match o with
    | Some Return => action_server_busy s' = false
    | Some DivisionByZero => False
    | _ => action_server_busy s' = action_server_busy s
    end.
Proof.
  induction fuel as [|fuel IH]; intros l s o s' es Hd.
  - loop_base l; intros [= <- <- <-]; reflexivity.
  - loop_pass env fuel l s; intros [= <- <- <-]; try reflexivity;
      apply IH in Hrest; try exact Hd; exact Hrest.
Qed.

(** ** The invariant of the loop *)

Lemma progress_bounds l t :
  target_temperature l <> initial_temperature l ->
  toward (is_increment l) (initial_temperature l) t ->
  toward (is_increment l) t (target_temperature l) ->
  0 <= progress_of l t <= 100.
Proof.
  unfold progress_of, toward. intros Hd Hfrom Hto.
  destruct (is_increment l).
  - rewrite Z.quot_div_nonneg by lia. split.
    + apply Z.div_pos; lia.
    + apply Z.div_le_upper_bound; lia.
  - replace ((t - initial_temperature l) * 100)
      with (- ((initial_temperature l - t) * 100)) by lia.
    replace (target_temperature l - initial_temperature l)
      with (- (initial_temperature l - target_temperature l)) by lia.
    rewrite Z.quot_opp_opp by lia.
    rewrite Z.quot_div_nonneg by lia. split.
    + apply Z.div_pos; lia.
    + apply Z.div_le_upper_bound; lia.
Qed.

Lemma task_inv_refused l s :
  task_inv l s ->
  task_inv (next_locals l (current_temperature s)) (after_rand 1 (after_poll s)).
Proof.
  intros [Hc Hr Ht Hd Hf Hto]. split; cbn; try assumption; try reflexivity;
    rewrite <- Hc; assumption.
Qed.

Lemma task_inv_performed l s :
  task_inv l s ->
  _current_temperature l <> target_temperature l ->
  let t := current_temperature s + delta (is_increment l) in
  Short.of_int t = t /\
  task_inv (next_locals l t) (with_temperature t (after_rand 2 (after_poll s))).
Proof.
  intros [Hc Hr Ht Hd Hf Hto] Hne t.
  assert (R : Short.in_range t).
  { subst t. unfold Short.in_range, Short.min, Short.max, toward, delta in *.
    destruct (is_increment l); lia. }
  split; [apply of_int_id; exact R|].
  split; cbn; try assumption; try reflexivity;
    subst t; unfold toward, delta in *; destruct (is_increment l); lia.
Qed.

Lemma last_cons {A : Type} (a d : A) (l : list A) :
  last (a :: l) d = last l a.
Proof.
  revert a d. induction l as [|b l IH]; intros a d; [reflexivity|].
  change (last (a :: b :: l) d) with (last (b :: l) d).
  rewrite (IH b d), (IH b a). reflexivity.
Qed.

Lemma Sorted_weaken {A : Type} (R R' : A -> A -> Prop) (l : list A) :
  (forall a b, R a b -> R' a b) -> Sorted R l -> Sorted R' l.
Proof.
  intros HR H. induction H as [|a l Hs IH Hh]; constructor.
  - exact IH.
  - destruct Hh; constructor. apply HR. assumption.
Qed.

Lemma while_loop_run env goalHandle fuel :
  forall l s o s' es,
    task_inv l s ->
    while_loop env fuel goalHandle l s = (o, s', es) ->
    Sorted (approach (is_increment l))
      (_current_temperature l :: feedback_temperatures es)
    /\ Forall (fun v => toward (is_increment l) (_current_temperature l) v
                       /\ toward (is_increment l) v (target_temperature l))
         (feedback_temperatures es)
    /\ Forall (fun p => 0 <= p <= 100) (feedback_progresses es)
    /\ Short.in_range (current_temperature s')
    /\ match o with
       | Some (Next l') =>
           _current_temperature l' = target_temperature l
           /\ current_temperature s' = target_temperature l
           /\ last (feedback_temperatures es) (_current_temperature l) =
                target_temperature l
       | Some Return =>
           exists es0,
             es = es0 ++ [GoalCanceled
                            (SetTemperature.Result.make (current_temperature s'))]
       | Some DivisionByZero => False
       | None => current_temperature s' <> target_temperature l
       end.
Proof.
  induction fuel as [|fuel IH]; intros l s o s' es Hinv;
    pose proof (inv_divisor _ _ Hinv) as Hd;
    pose proof (inv_current _ _ Hinv) as Hcur;
    pose proof (inv_range _ _ Hinv) as Hrange.
  - loop_base l; intros [= <- <- <-]; cbn;
      (split; [repeat constructor|]); (split; [once constructor|]);
      (split; [once constructor|]); (split; [assumption|]);
      first [congruence | repeat split; congruence].
  - loop_pass env fuel l s; intros [= <- <- <-].
    + cbn. (split; [repeat constructor|]); (split; [once constructor|]);
      (split; [once constructor|]); (split; [assumption|]);
      repeat split; congruence.
    + cbn. (split; [repeat constructor|]); (split; [once constructor|]);
      (split; [once constructor|]); (split; [assumption|]).
      exists []. cbn. rewrite Hcur. reflexivity.
    + apply IH in Hrest; [|apply task_inv_refused; exact Hinv].
      cbn in Hrest. destruct Hrest as (Hs & Hb & Hp & Hr' & Ho).
      cbn. rewrite <- Hcur in *.
      pose proof (inv_from _ _ Hinv) as Hf. pose proof (inv_to _ _ Hinv) as Ht.
      refine (conj _ (conj _ (conj _ (conj Hr' _)))).
      * constructor; [exact Hs|]. constructor. left. reflexivity.
      * constructor; [|exact Hb].
        split; [|exact Ht]. unfold toward. destruct (is_increment l); lia.
      * constructor; [|exact Hp]. apply progress_bounds; assumption.
      * destruct o2 as [[l'| |]|]; try exact Ho.
        -- destruct Ho as (Ho1 & Ho2 & Ho3).
           split; [exact Ho1|]. split; [exact Ho2|].
           exact (eq_trans (last_cons _ _ (feedback_temperatures e2)) Ho3).
        -- destruct Ho as [es0 ->]. eexists (_ :: _ :: es0). reflexivity.
    + destruct (task_inv_performed l s Hinv Hne) as [Hid Hinv'].
      cbv zeta in Hid, Hinv'. rewrite Hid in Hrest.
      apply IH in Hrest; [|exact Hinv'].
      cbn in Hrest. destruct Hrest as (Hs & Hb & Hp & Hr' & Ho).
      cbn. rewrite Hid.
      pose proof (inv_from _ _ Hinv') as Hf. pose proof (inv_to _ _ Hinv') as Ht.
      cbn in Hf, Ht.
      pose proof (inv_to _ _ Hinv) as Ht0.
      assert (Hstep : toward (is_increment l) (_current_temperature l)
                        (current_temperature s + delta (is_increment l))).
      { rewrite Hcur. unfold toward, delta. destruct (is_increment l); lia. }
      refine (conj _ (conj _ (conj _ (conj Hr' _)))).
      * constructor; [exact Hs|]. constructor. right. rewrite Hcur. reflexivity.
      * constructor; [split; assumption|].
        eapply Forall_impl; [|exact Hb]. cbn. intros v [Hv1 Hv2]. split; [|exact Hv2].
        unfold toward in *. destruct (is_increment l); lia.
      * constructor; [|exact Hp]. apply progress_bounds; assumption.
      * destruct o2 as [[l'| |]|]; try exact Ho.
        -- destruct Ho as (Ho1 & Ho2 & Ho3).
           split; [exact Ho1|]. split; [exact Ho2|].
           exact (eq_trans (last_cons _ _ (feedback_temperatures e2)) Ho3).
        -- destruct Ho as [es0 ->]. eexists (_ :: _ :: _ :: es0). reflexivity.
Qed.

(** ** The action callback as a whole *)

Lemma accepted_unfold env fuel goalHandle s :
  accepted_set_temperature_action_callback env fuel goalHandle s =
    let '(flow, s1, e1) :=
      while_loop env fuel goalHandle (initial_locals goalHandle s) s in
    match flow with
    | None => (None, s1, e1)
    | Some (Next l) =>
        (Some ExitSucceeded, with_busy false s1,
         e1 ++ [GoalSucceed (SetTemperature.Result.make (_current_temperature l))])
    | Some Return => (Some ExitCanceled, s1, e1)
    | Some DivisionByZero => (Some ExitUndefined, s1, e1)
    end.
Proof.
  unfold accepted_set_temperature_action_callback, accepted_locals, bind,
    get_current_temperature. cbn. fold (initial_locals goalHandle s).
  destruct (while_loop env fuel goalHandle (initial_locals goalHandle s) s)
    as [[flow s1] e1].
  destruct flow as [[l| |]|]; cbn; rewrite ?app_nil_r; reflexivity.
Qed.

Lemma initial_locals_inv goalHandle s :
  Short.in_range (current_temperature s) ->
  Short.in_range (SetTemperature.Goal.temperature (get_goal goalHandle)) ->
  SetTemperature.Goal.temperature (get_goal goalHandle) <> current_temperature s ->
  task_inv (initial_locals goalHandle s) s.
Proof.
  intros Hs Hg Hne. split; cbn; try assumption; try reflexivity.
  - unfold toward. destruct (_ <? _); lia.
  - unfold toward.
    destruct (Z.ltb_spec (current_temperature s)
                (SetTemperature.Goal.temperature (get_goal goalHandle))); lia.
Qed.

Lemma accepted_degenerate env fuel goalHandle s :
  SetTemperature.Goal.temperature (get_goal goalHandle) = current_temperature s ->
  accepted_set_temperature_action_callback env fuel goalHandle s =
    (Some ExitSucceeded, with_busy false s,
     [GoalSucceed (SetTemperature.Result.make (current_temperature s))]).
Proof.
  intros H. rewrite accepted_unfold.
  rewrite while_loop_exit by (cbn; symmetry; exact H). reflexivity.
Qed.

(** ** The step service: refusal, success, wrap-around *)

Lemma sleep_milliseconds_bounds (d : N) : 100 <= sleep_milliseconds d <= 499.
Proof.
  unfold sleep_milliseconds.
  pose proof (rem_nonneg_bound d 400 eq_refl). lia.
Qed.

Lemma sleep_milliseconds_onto (ms : Z) :
  100 <= ms <= 499 -> sleep_milliseconds (Z.to_N (ms - 100)) = ms.
Proof.
  intros H. unfold sleep_milliseconds.
  rewrite Z2N.id by lia. rewrite Z.rem_small by lia. lia.
Qed.

Lemma refusing_half (k : nat) :
  List.length (filter refuses (rand_range (2 * k))) = k.
Proof.
  unfold rand_range.
  assert (G : forall n start, Nat.even start = true ->
            List.length (filter refuses (map N.of_nat (seq start (2 * n)))) = n).
  { induction n as [|n IH]; intros start Hs; [reflexivity|].
    replace (2 * S n)%nat with (S (S (2 * n))) by lia.
    cbn [seq map filter].
    rewrite !refuses_even.
    assert (E1 : N.even (N.of_nat start) = true).
    { apply Nat.even_spec in Hs. destruct Hs as [j ->].
      apply N.even_spec. exists (N.of_nat j). lia. }
    assert (E2 : N.even (N.of_nat (S start)) = false).
    { apply Nat.even_spec in Hs. destruct Hs as [j ->].
      rewrite <- N.negb_odd.
      assert (O : N.odd (N.of_nat (S (2 * j))) = true)
        by (apply N.odd_spec; exists (N.of_nat j); lia).
      rewrite O. reflexivity. }
    rewrite E1, E2. cbn [List.length]. f_equal. apply IH.
    rewrite !Nat.even_succ, <- Nat.negb_even, Nat.even_succ.
    rewrite <- Nat.negb_even, Hs. reflexivity. }
  apply G. reflexivity.
Qed.

Lemma step_is_refused_draw env request s :
  step_is_refused env request s = refuses (rand_results env (rand_calls s)).
Proof.
  unfold step_is_refused.
  destruct (refuses (rand_results env (rand_calls s))) eqn:H.
  - rewrite step_refused by exact H. reflexivity.
  - rewrite step_performed by exact H. reflexivity.
Qed.

Lemma step_is_refused_next_draw env request s r :
  step_is_refused (with_next_draw env s r) request s = refuses r.
Proof.
  rewrite step_is_refused_draw. cbn. rewrite Nat.eqb_refl. reflexivity.
Qed.

(** C4.  Whether the step service refuses a request is decided by the
    [rand()] result it draws first: it refuses exactly when that result is
    even, so that of the possible results [0 .. RAND_MAX], with
    [RAND_MAX + 1 = 2 * k], exactly [k] lead to a refusal and the other [k] do
    not.  Every refusal is an ordinary response with [success = false], the
    unchanged temperature and the message "Temperature cannot be increased"
    (or "decreased"); it leaves the node's temperature and busy flag as they
    were, sleeps not at all and draws one random number. *)
Theorem step_refusal env request s (k : nat) :
  List.length (filter (fun r => step_is_refused (with_next_draw env s r) request s)
                 (rand_range (2 * k))) = k
  /\ List.length (filter (fun r => negb (step_is_refused (with_next_draw env s r)
                                           request s))
                    (rand_range (2 * k))) = k
  /\ step_is_refused env request s = N.even (rand_results env (rand_calls s))
  /\ (IncrementDecrementTemperature.Response.success
        (value_of (increment_decrement_temperature_callback env request s)) = false ->
      increment_decrement_temperature_callback env request s =
        (IncrementDecrementTemperature.Response.make false (current_temperature s)
           (if IncrementDecrementTemperature.Request.increment request
            then "Temperature cannot be increased"
            else "Temperature cannot be decreased")%string,
         after_rand 1 s, [])
      /\ current_temperature (after_rand 1 s) = current_temperature s).
Proof.
  assert (Hcount :
    List.length (filter (fun r => step_is_refused (with_next_draw env s r) request s)
                   (rand_range (2 * k))) = k).
  { rewrite (filter_ext _ refuses) by (intros r; apply step_is_refused_next_draw).
    apply refusing_half. }
  split; [exact Hcount|]. split; [|split].
  - pose proof (filter_length
                  (fun r => step_is_refused (with_next_draw env s r) request s)
                  (rand_range (2 * k))) as Hsum.
    assert (Hall : List.length (rand_range (2 * k)) = (2 * k)%nat)
      by (unfold rand_range; rewrite length_map, length_seq; reflexivity).
    rewrite Hcount, Hall in Hsum. lia.
  - rewrite step_is_refused_draw. apply refuses_even.
  - intros Hfalse.
    assert (H : refuses (rand_results env (rand_calls s)) = true).
    { rewrite <- (step_is_refused_draw env request s). unfold step_is_refused.
      rewrite Hfalse. reflexivity. }
    split; [|reflexivity].
    rewrite step_refused by exact H.
    destruct (IncrementDecrementTemperature.Request.increment request); reflexivity.
Qed.

Lemma step_refusal_witness :
  IncrementDecrementTemperature.Response.success
    (value_of (increment_decrement_temperature_callback env_refusing (step_request true)
                 (mkState 20 false 0 0))) = false
  /\ List.length (filter (fun r => step_is_refused
                                     (with_next_draw env_refusing (mkState 20 false 0 0) r)
                                     (step_request true) (mkState 20 false 0 0))
                    (rand_range (2 * 16))) = 16%nat
  /\ increment_decrement_temperature_callback env_refusing (step_request true)
       (mkState 20 false 0 0) =
       (IncrementDecrementTemperature.Response.make false 20
          "Temperature cannot be increased"%string,
        mkState 20 false 1 0, []).
Proof.
  split; [reflexivity|].
  destruct (step_refusal env_refusing (step_request true) (mkState 20 false 0 0) 16)
    as (H1 & _ & _ & H4).
  split; [exact H1|]. exact (proj1 (H4 eq_refl)).
Defined.

(** C3, as amended.  A step request that is not refused sleeps
    [rand() % 400 + 100] milliseconds, a duration between 100 and 499 (each of
    them possible, 500 not), then adds 1 (increment) or -1 (decrement) to the
    temperature in 16-bit arithmetic: the change is exactly +1 or -1 unless it
    would leave [-32768 .. 32767].  The response has [success = true], the new
    temperature and the message "Temperature increased successfully" (or
    "decreased"). *)
Theorem step_success env request s :
  refuses (rand_results env (rand_calls s)) = false ->
  let inc := IncrementDecrementTemperature.Request.increment request in
  let ms := sleep_milliseconds (rand_results env (S (rand_calls s))) in
  let t' := Short.of_int (current_temperature s + delta inc) in
  increment_decrement_temperature_callback env request s =
    (IncrementDecrementTemperature.Response.make true t'
       (if inc then "Temperature increased successfully"
        else "Temperature decreased successfully")%string,
     with_temperature t' (after_rand 2 s),
     [SleepFor ms])
  /\ 100 <= ms <= 499
  /\ (forall d, 100 <= d <= 499 -> sleep_milliseconds (Z.to_N (d - 100)) = d)
  /\ (Short.in_range (current_temperature s + delta inc) ->
      t' = current_temperature s + delta inc).
Proof.
  intros H inc ms t'. split; [|split; [|split]].
  - rewrite step_performed by exact H. cbv zeta. fold inc. fold t'. fold ms.
    destruct inc; reflexivity.
  - apply sleep_milliseconds_bounds.
  - apply sleep_milliseconds_onto.
  - apply of_int_id.
Qed.

Lemma step_success_witness :
  refuses (rand_results env_willing 4) = false
  /\ increment_decrement_temperature_callback env_willing (step_request false)
       (mkState 20 true 4 1) =
       (IncrementDecrementTemperature.Response.make true 19
          "Temperature decreased successfully"%string,
        mkState 19 true 6 1, [SleepFor 107])
  /\ 100 <= 107 <= 499
  /\ Short.of_int (20 + delta false) = 20 + delta false.
Proof.
  split; [reflexivity|].
  destruct (step_success env_willing (step_request false) (mkState 20 true 4 1)
              eq_refl) as (H1 & H2 & _ & H4).
  split; [exact H1|]. split; [exact H2|].
  apply H4. unfold Short.in_range, Short.min, Short.max. cbn. lia.
Defined.

(** C3 as stated fails: a successful increment at 32767 changes the
    temperature by -65535, not by +1, and no [rand()] result makes the service
    sleep 500 ms. *)
Lemma step_success_counterexample :
  current_temperature
    (state_of (increment_decrement_temperature_callback env_willing
                 (step_request true) (mkState 32767 false 0 0))) - 32767 = -65535
  /\ value_of (increment_decrement_temperature_callback env_willing
                 (step_request true) (mkState 32767 false 0 0)) =
       IncrementDecrementTemperature.Response.make true (-32768)
         "Temperature increased successfully"%string
  /\ ~ exists d : N, sleep_milliseconds d = 500.
Proof.
  split; [reflexivity|]. split; [reflexivity|].
  intros [d Hd]. pose proof (sleep_milliseconds_bounds d). lia.
Qed.

(** C10.  The temperature is a 16-bit signed integer and the step service has
    no range guard: whether a step is performed depends on the [rand()]
    result only, and a performed step stores the sum reduced modulo 2^16, so
    an increment at 32767 gives -32768 and a decrement at -32768 gives 32767,
    both reported with [success = true]. *)
Theorem step_wraps env request s :
  refuses (rand_results env (rand_calls s)) = false ->
  let inc := IncrementDecrementTemperature.Request.increment request in
  let r := increment_decrement_temperature_callback env request s in
  IncrementDecrementTemperature.Response.success (value_of r) = true
  /\ IncrementDecrementTemperature.Response.temperature (value_of r) =
       current_temperature (state_of r)
  /\ current_temperature (state_of r) =
       (current_temperature s + delta inc + 32768) mod 65536 - 32768
  /\ Short.in_range (current_temperature (state_of r))
  /\ (inc = true -> current_temperature s = 32767 ->
      current_temperature (state_of r) = -32768)
  /\ (inc = false -> current_temperature s = -32768 ->
      current_temperature (state_of r) = 32767).
Proof.
  intros H inc r. subst r. rewrite step_performed by exact H. cbv zeta. fold inc.
  unfold value_of, state_of. cbn.
  split; [reflexivity|]. split; [reflexivity|]. split; [reflexivity|].
  split; [apply of_int_in_range|].
  split; intros -> ->; reflexivity.
Qed.

Lemma step_wraps_witness :
  let r := increment_decrement_temperature_callback env_willing (step_request true)
             (mkState 32767 false 0 0) in
  let r' := increment_decrement_temperature_callback env_willing (step_request false)
              (mkState (-32768) false 0 0) in
  refuses (rand_results env_willing 0) = false
  /\ IncrementDecrementTemperature.Response.success (value_of r) = true
  /\ current_temperature (state_of r) = -32768
  /\ IncrementDecrementTemperature.Response.success (value_of r') = true
  /\ current_temperature (state_of r') = 32767.
Proof.
  cbv zeta. split; [reflexivity|].
  destruct (step_wraps env_willing (step_request true) (mkState 32767 false 0 0)
              eq_refl) as (H1 & _ & _ & _ & H5 & _).
  destruct (step_wraps env_willing (step_request false) (mkState (-32768) false 0 0)
              eq_refl) as (H1' & _ & _ & _ & _ & H6').
  split; [exact H1|]. split; [exact (H5 eq_refl eq_refl)|].
  split; [exact H1'|]. exact (H6' eq_refl eq_refl).
Defined.

(** C9.  The cancel handler accepts every cancellation request, whatever the
    goal handle and the state of the node, and changes nothing. *)
Theorem cancel_always_accepted (goalHandle : ServerGoalHandle) (s : State) :
  cancel_set_temperature_action_callback goalHandle s = (CancelResponse.ACCEPT, s, []).
Proof. reflexivity. Qed.

(** ** Initialisation and the places that write the temperature *)

Lemma initial_temperature_bounds env :
  15 <= current_temperature (TemperatureSystemsControllerNode env) <= 99.
Proof.
  unfold TemperatureSystemsControllerNode. cbn.
  pose proof (rem_nonneg_bound (rand_results env 0) 85 eq_refl) as H.
  rewrite of_int_id; [lia|].
  unfold Short.in_range, Short.min, Short.max. lia.
Qed.

Lemma loop_body_temperature env goalHandle l s :
  current_temperature (state_of (loop_body env goalHandle l s)) =
    if is_canceling_results env (is_canceling_calls s)
    then current_temperature s
    else current_temperature
           (state_of (increment_decrement_temperature_callback env
                        (step_request (is_increment l)) (after_poll s))).
Proof.
  unfold loop_body, bind, is_canceling, step_request.
  destruct (is_canceling_results env (is_canceling_calls s)); [reflexivity|].
  cbn [emit]. fold (after_poll s).
  destruct (increment_decrement_temperature_callback env _ (after_poll s))
    as [[response s1] es].
  destruct (int_div _ _); reflexivity.
Qed.

Lemma sent_requests_app es1 es2 :
  sent_requests (es1 ++ es2) = sent_requests es1 ++ sent_requests es2.
Proof.
  induction es1 as [|e es1 IH]; [reflexivity|].
  destruct e; cbn; rewrite IH; reflexivity.
Qed.

Lemma serve_requests_cons env request requests s :
  state_of (serve_requests env (request :: requests) s) =
    state_of (serve_requests env requests
                (state_of (increment_decrement_temperature_callback env request s))).
Proof.
  cbn [serve_requests]. unfold bind, state_of.
  destruct (increment_decrement_temperature_callback env request s) as [[response s1] e1].
  cbn [fst snd].
  destruct (serve_requests env requests s1) as [[u s2] e2]. reflexivity.
Qed.

(** The loop leaves the temperature, and the position on the [rand()] tape,
    as the step service alone leaves them when it serves the requests the
    loop sent. *)
Lemma while_loop_replay env goalHandle fuel :
  forall l s s0 o s' es,
    target_temperature l <> initial_temperature l ->
    current_temperature s = current_temperature s0 ->
    rand_calls s = rand_calls s0 ->
    while_loop env fuel goalHandle l s = (o, s', es) ->
    current_temperature s' =
      current_temperature (state_of (serve_requests env (sent_requests es) s0))
    /\ rand_calls s' =
         rand_calls (state_of (serve_requests env (sent_requests es) s0)).
Proof.
  induction fuel as [|fuel IH]; intros l s s0 o s' es Hd Htemp Hrand.
  - loop_base l; intros [= <- <- <-]; cbn; split; assumption.
  - loop_pass env fuel l s; intros [= <- <- <-]; try (cbn; split; assumption).
    + cbn [sent_requests]. rewrite serve_requests_cons.
      rewrite (step_refused env _ s0) by (rewrite <- Hrand; exact Hrefuse).
      unfold state_of at 2 4. cbn [fst snd].
      eapply (fun hd ht hr => IH _ _ _ _ _ _ hd ht hr Hrest);
        [exact Hd | cbn; congruence | cbn; congruence].
    + cbn [sent_requests]. rewrite serve_requests_cons.
      rewrite (step_performed env _ s0) by (rewrite <- Hrand; exact Hrefuse).
      cbv zeta. unfold state_of at 2 4. cbn [fst snd].
      eapply (fun hd ht hr => IH _ _ _ _ _ _ hd ht hr Hrest);
        [exact Hd | cbn; congruence | cbn; congruence].
Qed.

Lemma accepted_replay env fuel goalHandle s :
  let r := accepted_set_temperature_action_callback env fuel goalHandle s in
  current_temperature (state_of r) =
    current_temperature
      (state_of (serve_requests env (sent_requests (events_of r)) s))
  /\ rand_calls (state_of r) =
       rand_calls (state_of (serve_requests env (sent_requests (events_of r)) s)).
Proof.
  cbv zeta.
  destruct (Z.eq_dec (SetTemperature.Goal.temperature (get_goal goalHandle))
              (current_temperature s)) as [Heq|Hne].
  - rewrite accepted_degenerate by exact Heq. cbn. split; reflexivity.
  - rewrite accepted_unfold.
    destruct (while_loop env fuel goalHandle (initial_locals goalHandle s) s)
      as [[flow s1] e1] eqn:Hrun.
    apply (while_loop_replay env goalHandle fuel _ s s) in Hrun;
      [|exact Hne|reflexivity|reflexivity].
    destruct flow as [[l| |]|]; unfold state_of at 1 3, events_of;
      cbn [fst snd]; rewrite ?sent_requests_app; cbn [sent_requests];
      rewrite ?app_nil_r; exact Hrun.
Qed.

(** C8, as amended.  The constructor sets the temperature to
    [rand() % 85 + 15], an integer between 15 and 99 (each of them the value
    for a suitable [rand()] result); afterwards only the step service writes
    it.  The monitor timer, the query service, the goal handler and the
    cancel handler leave it as it is.  A pass of the action loop leaves it as
    it is when it cancels and otherwise as the step service it calls leaves
    it, and the action callback as a whole, however it ends or however long it
    runs, leaves it exactly as the step service alone leaves it when it
    serves the requests the callback sent: unchanged if it sent none. *)
Theorem initialization_range env :
  15 <= current_temperature (TemperatureSystemsControllerNode env) <= 99
  /\ current_temperature (TemperatureSystemsControllerNode env) =
       Z.of_N (rand_results env 0) mod 85 + 15
  /\ (forall v, 15 <= v <= 99 ->
        exists env', current_temperature (TemperatureSystemsControllerNode env') = v)
  /\ (forall s,
        current_temperature (state_of (temperature_monitor_callback s)) =
          current_temperature s
        /\ current_temperature (state_of (get_current_temperature_callback s)) =
             current_temperature s)
  /\ (forall uuid goal goalHandle s,
        current_temperature
          (state_of (handle_set_temperature_action_callback uuid goal s)) =
          current_temperature s
        /\ current_temperature
             (state_of (cancel_set_temperature_action_callback goalHandle s)) =
             current_temperature s)
  /\ (forall goalHandle l s,
        current_temperature (state_of (loop_body env goalHandle l s)) =
          if is_canceling_results env (is_canceling_calls s)
          then current_temperature s
          else current_temperature
                 (state_of (increment_decrement_temperature_callback env
                              (step_request (is_increment l)) (after_poll s))))
  /\ (forall fuel goalHandle s,
        let r := accepted_set_temperature_action_callback env fuel goalHandle s in
        current_temperature (state_of r) =
          current_temperature
            (state_of (serve_requests env (sent_requests (events_of r)) s))
        /\ (sent_requests (events_of r) = [] ->
            current_temperature (state_of r) = current_temperature s)).
Proof.
  split; [apply initial_temperature_bounds|].
  split; [|split; [|split; [|split; [|split]]]].
  - unfold TemperatureSystemsControllerNode. cbn.
    pose proof (rem_nonneg_bound (rand_results env 0) 85 eq_refl) as H.
    rewrite of_int_id by (unfold Short.in_range, Short.min, Short.max; lia).
    rewrite Z.rem_mod_nonneg by lia. reflexivity.
  - intros v Hv.
    exists {| rand_results := fun _ => Z.to_N (v - 15);
              is_canceling_results := fun _ => false |}.
    unfold TemperatureSystemsControllerNode. cbn.
    rewrite Z2N.id by lia. rewrite Z.rem_small by lia.
    rewrite of_int_id by (unfold Short.in_range, Short.min, Short.max; lia). lia.
  - intros s. split; reflexivity.
  - intros uuid goal goalHandle s. split; [|reflexivity].
    unfold handle_set_temperature_action_callback, bind, get_action_server_busy.
    destruct (action_server_busy s); reflexivity.
  - intros goalHandle l s. apply loop_body_temperature.
  - intros fuel goalHandle s r.
    destruct (accepted_replay env fuel goalHandle s) as [Hreplay _].
    fold r in Hreplay. split; [exact Hreplay|].
    intros Hnone. rewrite Hreplay, Hnone. reflexivity.
Qed.

Lemma initialization_range_witness :
  current_temperature (TemperatureSystemsControllerNode env_mixed) = 18
  /\ 15 <= 18 <= 99
  /\ (exists env', current_temperature (TemperatureSystemsControllerNode env') = 99)
  /\ (let r := accepted_set_temperature_action_callback env_mixed 10 (goal_handle 18)
                 (TemperatureSystemsControllerNode env_mixed) in
      sent_requests (events_of r) = []
      /\ current_temperature (state_of r) = 18).
Proof.
  destruct (initialization_range env_mixed) as (H1 & _ & H3 & _ & _ & _ & H7).
  split; [reflexivity|]. split; [exact H1|]. split; [apply H3; lia|].
  cbv zeta. split; [reflexivity|].
  exact (proj2 (H7 10%nat (goal_handle 18) (TemperatureSystemsControllerNode env_mixed))
           eq_refl).
Defined.

(** C8 as stated fails: 100 is not a possible initial temperature. *)
Lemma initialization_range_counterexample :
  ~ exists env, current_temperature (TemperatureSystemsControllerNode env) = 100.
Proof.
  intros [env H]. pose proof (initial_temperature_bounds env). lia.
Qed.

(** ** The goal handler and the busy flag *)

Lemma handle_cases uuid goal s :
  handle_set_temperature_action_callback uuid goal s =
    if action_server_busy s then (GoalResponse.REJECT, s, [])
    else (GoalResponse.ACCEPT_AND_EXECUTE, with_busy true s, []).
Proof.
  unfold handle_set_temperature_action_callback, bind, get_action_server_busy.
  destruct (action_server_busy s); reflexivity.
Qed.

(** C1.  The goal handler accepts a request exactly when the busy flag is
    clear, and then sets it; with the flag set it rejects and changes nothing.
    Once a task was accepted, the flag stays set as long as the action
    callback is in its loop, so that a request arriving at any iteration
    boundary is rejected, and the flag is clear when the callback has ended,
    by success or by cancellation; the callback ends in no other way. *)
Theorem single_flight env fuel goalHandle s uuid goal :
  handle_set_temperature_action_callback uuid goal s =
    (if action_server_busy s then (GoalResponse.REJECT, s, [])
     else (GoalResponse.ACCEPT_AND_EXECUTE, with_busy true s, []))
  /\ (action_server_busy s = true ->
      let r := accepted_set_temperature_action_callback env fuel goalHandle s in
      match value_of r with
      | None =>
          action_server_busy (state_of r) = true
          /\ handle_set_temperature_action_callback uuid goal (state_of r) =
               (GoalResponse.REJECT, state_of r, [])
      | Some ExitSucceeded | Some ExitCanceled =>
          action_server_busy (state_of r) = false
          /\ value_of (handle_set_temperature_action_callback uuid goal (state_of r)) =
               GoalResponse.ACCEPT_AND_EXECUTE
      | Some ExitUndefined => False
      end).
Proof.
  split; [apply handle_cases|].
  intros Hbusy r. subst r.
  destruct (Z.eq_dec (SetTemperature.Goal.temperature (get_goal goalHandle))
              (current_temperature s)) as [Heq|Hne].
  - rewrite accepted_degenerate by exact Heq. cbn. split; reflexivity.
  - rewrite accepted_unfold.
    destruct (while_loop env fuel goalHandle (initial_locals goalHandle s) s)
      as [[flow s1] e1] eqn:Hrun.
    apply while_loop_busy in Hrun; [|exact Hne].
    destruct flow as [[l| |]|]; unfold value_of, state_of; cbn [fst snd].
    + split; reflexivity.
    + rewrite handle_cases, Hrun. split; reflexivity.
    + exact Hrun.
    + rewrite handle_cases, Hrun, Hbusy. split; reflexivity.
Qed.

Lemma single_flight_witness :
  let r := accepted_set_temperature_action_callback env_refusing 4
             (goal_handle 25) (mkState 20 true 0 0) in
  action_server_busy (mkState 20 true 0 0) = true
  /\ value_of r = None
  /\ action_server_busy (state_of r) = true
  /\ handle_set_temperature_action_callback [] (SetTemperature.Goal.make 30)
       (state_of r) = (GoalResponse.REJECT, state_of r, []).
Proof.
  cbv zeta. split; [reflexivity|]. split; [reflexivity|].
  exact (proj2 (single_flight env_refusing 4 (goal_handle 25) (mkState 20 true 0 0)
                  [] (SetTemperature.Goal.make 30)) eq_refl).
Defined.

(** ** The degenerate target *)

(** C2, as amended.  A task whose target equals the temperature at its start
    ends at once, for any amount of fuel: the loop body is never entered, so
    no request is sent to the step service, no random number is drawn, no
    cancellation poll is made, no progress is computed (no division takes
    place) and no feedback is published; the only event is the success
    report with the unchanged temperature, and the busy flag is cleared. *)
Theorem degenerate_target env fuel goalHandle s :
  SetTemperature.Goal.temperature (get_goal goalHandle) = current_temperature s ->
  let r := accepted_set_temperature_action_callback env fuel goalHandle s in
  r = (Some ExitSucceeded, with_busy false s,
       [GoalSucceed (SetTemperature.Result.make (current_temperature s))])
  /\ sent_requests (events_of r) = []
  /\ published_feedback (events_of r) = []
  /\ value_of r <> Some ExitUndefined.
Proof.
  intros H r. subst r. rewrite accepted_degenerate by exact H.
  repeat split. discriminate.
Qed.

Lemma degenerate_target_witness :
  accepted_set_temperature_action_callback env_mixed 0 (goal_handle 20)
    (mkState 20 true 3 0) =
    (Some ExitSucceeded, mkState 20 false 3 0,
     [GoalSucceed (SetTemperature.Result.make 20)])
  /\ sent_requests
       (events_of (accepted_set_temperature_action_callback env_mixed 0
                     (goal_handle 20) (mkState 20 true 3 0))) = []
  /\ published_feedback
       (events_of (accepted_set_temperature_action_callback env_mixed 0
                     (goal_handle 20) (mkState 20 true 3 0))) = []
  /\ value_of (accepted_set_temperature_action_callback env_mixed 0
                 (goal_handle 20) (mkState 20 true 3 0)) <> Some ExitUndefined.
Proof.
  apply (degenerate_target env_mixed 0 (goal_handle 20) (mkState 20 true 3 0)).
  reflexivity.
Defined.

(** C2 as stated fails: with target 20 at temperature 20 the task succeeds
    without reporting any progress; no feedback carries progress 100, and the
    feedback message the callback holds at the end of the loop still has the
    progress 0 it was created with. *)
Lemma degenerate_target_counterexample :
  let s := mkState 20 true 0 0 in
  let r := accepted_set_temperature_action_callback env_willing 5 (goal_handle 20) s in
  value_of r = Some ExitSucceeded
  /\ ~ In 100 (feedback_progresses (events_of r))
  /\ exists l,
       value_of (while_loop env_willing 5 (goal_handle 20)
                   (initial_locals (goal_handle 20) s) s) = Some (Next l)
       /\ SetTemperature.Feedback.progress (feedback l) = 0.
Proof.
  cbv zeta. split; [reflexivity|]. split.
  - cbn. intros [].
  - eexists. split; reflexivity.
Qed.

(** ** Cancellation *)

Lemma while_loop_resume env goalHandle n :
  forall l s s1 e1,
    in_step l s ->
    while_loop env n goalHandle l s = (None, s1, e1) ->
    exists l1,
      in_step l1 s1
      /\ _current_temperature l1 <> target_temperature l1
      /\ forall m,
           while_loop env (n + m) goalHandle l s =
             let '(o, s2, e2) := while_loop env m goalHandle l1 s1 in
             (o, s2, e1 ++ e2).
Proof.
  induction n as [|n IH]; intros l s s1 e1 [Hcur Hd].
  - loop_base l; intros [= <- <-]. exists l. split; [split; assumption|].
    split; [assumption|]. intros m. cbn [Nat.add app].
    destruct (while_loop env m goalHandle l s) as [[o s2] e2]. reflexivity.
  - loop_pass env n l s; intros [= -> <- <-].
    + apply IH in Hrest; [|split; [reflexivity|exact Hd]].
      destruct Hrest as (l1 & Hin & Hne1 & Hm). exists l1.
      split; [exact Hin|]. split; [exact Hne1|]. intros m.
      cbn [Nat.add]. rewrite while_loop_refused by assumption. cbv zeta.
      rewrite Hm. destruct (while_loop env m goalHandle l1 s2) as [[o s3] e3].
      reflexivity.
    + apply IH in Hrest; [|split; [reflexivity|exact Hd]].
      destruct Hrest as (l1 & Hin & Hne1 & Hm). exists l1.
      split; [exact Hin|]. split; [exact Hne1|]. intros m.
      cbn [Nat.add]. rewrite while_loop_performed by assumption. cbv zeta.
      rewrite Hm. destruct (while_loop env m goalHandle l1 s2) as [[o s3] e3].
      reflexivity.
Qed.

(** C5.  Take a task that is still in its loop after [fuel] passes, in state
    [s1] and with the events [e1] behind it.  If the poll at the next
    iteration boundary shows a cancellation, the callback ends there, however
    many more passes it would be allowed: nothing is sent to the step service
    any more, the goal is reported canceled with a result that carries the
    temperature the node has then (the value of the last completed step; the
    result has no other field), and the busy flag is cleared. *)
Theorem cancellation env fuel more goalHandle s s1 e1 :
  accepted_set_temperature_action_callback env fuel goalHandle s = (None, s1, e1) ->
  is_canceling_results env (is_canceling_calls s1) = true ->
  accepted_set_temperature_action_callback env (fuel + S more) goalHandle s =
    (Some ExitCanceled,
     with_busy false (after_poll s1),
     e1 ++ [GoalCanceled (SetTemperature.Result.make (current_temperature s1))]).
Proof.
  intros Hrun Hcancel. rewrite accepted_unfold in Hrun. rewrite accepted_unfold.
  destruct (Z.eq_dec (SetTemperature.Goal.temperature (get_goal goalHandle))
              (current_temperature s)) as [Heq|Hne].
  { rewrite while_loop_exit in Hrun by (cbn; symmetry; exact Heq). discriminate. }
  destruct (while_loop env fuel goalHandle (initial_locals goalHandle s) s)
    as [[flow s1'] e1'] eqn:Hloop.
  destruct flow as [[l| |]|]; try discriminate.
  injection Hrun as -> ->.
  apply while_loop_resume in Hloop; [|split; [reflexivity|exact Hne]].
  destruct Hloop as (l1 & [Hcur Hd] & Hne1 & Hm).
  rewrite Hm. rewrite while_loop_canceled by assumption.
  rewrite Hcur. reflexivity.
Qed.

Lemma cancellation_witness :
  accepted_set_temperature_action_callback env_mixed 2 (goal_handle 21)
    (mkState 18 true 1 0) =
    (None, mkState 19 true 4 2,
     [SendRequest (step_request true); SleepFor 107;
      PublishFeedback (SetTemperature.Feedback.make 19 33);
      SendRequest (step_request true);
      PublishFeedback (SetTemperature.Feedback.make 19 33)])
  /\ is_canceling_results env_mixed 2 = true
  /\ accepted_set_temperature_action_callback env_mixed (2 + 6) (goal_handle 21)
       (mkState 18 true 1 0) =
       (Some ExitCanceled, mkState 19 false 4 3,
        [SendRequest (step_request true); SleepFor 107;
         PublishFeedback (SetTemperature.Feedback.make 19 33);
         SendRequest (step_request true);
         PublishFeedback (SetTemperature.Feedback.make 19 33);
         GoalCanceled (SetTemperature.Result.make 19)]).
Proof.
  split; [reflexivity|]. split; [reflexivity|].
  exact (cancellation env_mixed 2 5 (goal_handle 21) (mkState 18 true 1 0)
           (mkState 19 true 4 2)
           [SendRequest (step_request true); SleepFor 107;
            PublishFeedback (SetTemperature.Feedback.make 19 33);
            SendRequest (step_request true);
            PublishFeedback (SetTemperature.Feedback.make 19 33)]
           eq_refl eq_refl).
Defined.

(** ** Feedback: progress and monotone approach *)

Lemma feedback_temperatures_app es1 es2 :
  feedback_temperatures (es1 ++ es2) =
    feedback_temperatures es1 ++ feedback_temperatures es2.
Proof.
  induction es1 as [|e es1 IH]; [reflexivity|].
  destruct e; cbn; rewrite IH; reflexivity.
Qed.

Lemma feedback_progresses_app es1 es2 :
  feedback_progresses (es1 ++ es2) =
    feedback_progresses es1 ++ feedback_progresses es2.
Proof.
  induction es1 as [|e es1 IH]; [reflexivity|].
  destruct e; cbn; rewrite IH; reflexivity.
Qed.

Lemma published_feedback_app es1 es2 :
  published_feedback (es1 ++ es2) = published_feedback es1 ++ published_feedback es2.
Proof.
  induction es1 as [|e es1 IH]; [reflexivity|].
  destruct e; cbn; rewrite IH; reflexivity.
Qed.

Lemma step_response env request s :
  let r := increment_decrement_temperature_callback env request s in
  published_feedback (events_of r) = []
  /\ sent_requests (events_of r) = []
  /\ IncrementDecrementTemperature.Response.temperature (value_of r) =
       current_temperature (state_of r)
  /\ (IncrementDecrementTemperature.Response.success (value_of r) = false ->
      state_of r = after_rand 1 s).
Proof.
  cbv zeta. destruct (refuses (rand_results env (rand_calls s))) eqn:H.
  - rewrite step_refused by exact H. repeat split.
  - rewrite step_performed by exact H. cbv zeta. repeat split.
    unfold value_of. cbn. discriminate.
Qed.

(** C7.  A pass of the loop that is not cancelled sends one request to the
    step service, takes [_current_temperature] from the response, whether the
    step was performed or refused (then it is the temperature as it was),
    computes the progress [(_current_temperature - initial_temperature) * 100
    / (target_temperature - initial_temperature)] with truncating division,
    and publishes exactly one feedback message with the two. *)
Theorem progress_reporting env goalHandle l s :
  is_canceling_results env (is_canceling_calls s) = false ->
  target_temperature l <> initial_temperature l ->
  let request := step_request (is_increment l) in
  let r := increment_decrement_temperature_callback env request (after_poll s) in
  let t := IncrementDecrementTemperature.Response.temperature (value_of r) in
  let progress :=
    Z.quot ((t - initial_temperature l) * 100)
           (target_temperature l - initial_temperature l) in
  let fb := SetTemperature.Feedback.make t progress in
  loop_body env goalHandle l s =
    (Next (mkLocals fb (result l) (target_temperature l) (initial_temperature l)
             t (is_increment l)),
     state_of r,
     SendRequest request :: events_of r ++ [PublishFeedback fb])
  /\ published_feedback (events_of (loop_body env goalHandle l s)) = [fb]
  /\ sent_requests (events_of (loop_body env goalHandle l s)) = [request]
  /\ t = current_temperature (state_of r)
  /\ (IncrementDecrementTemperature.Response.success (value_of r) = false ->
      t = current_temperature s).
Proof.
  intros Hc Hd request r t progress fb.
  assert (E : loop_body env goalHandle l s =
              (Next (mkLocals fb (result l) (target_temperature l)
                       (initial_temperature l) t (is_increment l)),
               state_of r,
               SendRequest request :: events_of r ++ [PublishFeedback fb])).
  { rewrite loop_body_stepping by assumption. cbv zeta.
    subst fb progress t r request. unfold step_request.
    destruct (increment_decrement_temperature_callback env _ (after_poll s))
      as [[response s1] es]. reflexivity. }
  destruct (step_response env request (after_poll s)) as (Hp & Hs & Ht & Hf).
  fold r in Hp, Hs, Ht, Hf.
  split; [exact E|]. rewrite E. unfold events_of at 1 3. cbn [snd].
  split; [|split; [|split]].
  - cbn [published_feedback]. rewrite published_feedback_app, Hp. reflexivity.
  - cbn [sent_requests]. rewrite sent_requests_app, Hs. reflexivity.
  - exact Ht.
  - intros Hfalse. subst t. rewrite Ht, (Hf Hfalse). reflexivity.
Qed.

Lemma progress_reporting_witness :
  loop_body env_mixed (goal_handle 21)
    (initial_locals (goal_handle 21) (mkState 18 true 1 0)) (mkState 18 true 1 0) =
    (Next (mkLocals (SetTemperature.Feedback.make 19 33)
             SetTemperature.Result.default 21 18 19 true),
     mkState 19 true 3 1,
     [SendRequest (step_request true); SleepFor 107;
      PublishFeedback (SetTemperature.Feedback.make 19 33)])
  /\ loop_body env_refusing (goal_handle 13)
       (initial_locals (goal_handle 13) (mkState 18 true 1 0)) (mkState 18 true 1 0) =
       (Next (mkLocals (SetTemperature.Feedback.make 18 0)
                SetTemperature.Result.default 13 18 18 false),
        mkState 18 true 2 1,
        [SendRequest (step_request false);
         PublishFeedback (SetTemperature.Feedback.make 18 0)]).
Proof.
  split.
  - exact (proj1 (progress_reporting env_mixed (goal_handle 21)
                    (initial_locals (goal_handle 21) (mkState 18 true 1 0))
                    (mkState 18 true 1 0) eq_refl
                    ltac:(cbn; discriminate))).
  - exact (proj1 (progress_reporting env_refusing (goal_handle 13)
                    (initial_locals (goal_handle 13) (mkState 18 true 1 0))
                    (mkState 18 true 1 0) eq_refl
                    ltac:(cbn; discriminate))).
Defined.

Lemma approach_le a b : approach true a b -> a <= b.
Proof. unfold approach, delta. lia. Qed.

Lemma approach_ge a b : approach false a b -> a >= b.
Proof. unfold approach, delta. lia. Qed.

(** C6.  Let a task start at a temperature [initial] with a target, both
    16-bit.  The values it observes, that is [initial] followed by the
    temperatures of the feedback it publishes, each repeat the one before or
    move one unit towards the target: with [initial < target] they never
    decrease and stay within [initial .. target], with [target < initial]
    they never increase and stay within [target .. initial].  When the task
    succeeds the last observed value and the node's temperature are the
    target; as long as it is in its loop the temperature is not the target. *)
Theorem monotone_approach env fuel goalHandle s :
  Short.in_range (current_temperature s) ->
  Short.in_range (SetTemperature.Goal.temperature (get_goal goalHandle)) ->
  let initial := current_temperature s in
  let target := SetTemperature.Goal.temperature (get_goal goalHandle) in
  let r := accepted_set_temperature_action_callback env fuel goalHandle s in
  let observed := initial :: feedback_temperatures (events_of r) in
  Sorted (approach (initial <? target)) observed
  /\ (initial < target ->
      Sorted Z.le observed /\ Forall (fun v => initial <= v <= target) observed)
  /\ (target < initial ->
      Sorted Z.ge observed /\ Forall (fun v => target <= v <= initial) observed)
  /\ (value_of r = Some ExitSucceeded ->
      last observed initial = target /\ current_temperature (state_of r) = target)
  /\ (value_of r = None -> current_temperature (state_of r) <> target)
  /\ value_of r <> Some ExitUndefined.
Proof.
  intros Hs Hg initial target r observed.
  assert (Main :
    Sorted (approach (initial <? target)) observed
    /\ Forall (fun v => toward (initial <? target) initial v
                       /\ toward (initial <? target) v target) observed
    /\ (value_of r = Some ExitSucceeded ->
        last observed initial = target /\ current_temperature (state_of r) = target)
    /\ (value_of r = None -> current_temperature (state_of r) <> target)
    /\ value_of r <> Some ExitUndefined).
  { subst observed r.
    destruct (Z.eq_dec target initial) as [Heq|Hne].
    - rewrite accepted_degenerate by exact Heq. unfold value_of, state_of, events_of.
      cbn [fst snd feedback_temperatures]. fold initial.
      split; [repeat constructor|]. split.
      + constructor; [|constructor]. rewrite Heq. unfold toward.
        destruct (initial <? initial); lia.
      + split; [intros _; split; symmetry; exact Heq|].
        split; discriminate.
    - rewrite accepted_unfold.
      destruct (while_loop env fuel goalHandle (initial_locals goalHandle s) s)
        as [[flow s1] e1] eqn:Hrun.
      apply while_loop_run in Hrun; [|apply initial_locals_inv; assumption].
      cbn [initial_locals is_increment _current_temperature target_temperature] in Hrun.
      fold initial in Hrun. fold target in Hrun.
      destruct Hrun as (Hsorted & Hbound & _ & _ & Ho).
      assert (Hfirst : toward (initial <? target) initial initial
                       /\ toward (initial <? target) initial target).
      { unfold toward. destruct (Z.ltb_spec initial target); lia. }
      destruct flow as [[l| |]|]; unfold value_of, state_of, events_of;
        cbn [fst snd]; rewrite ?feedback_temperatures_app;
        cbn [feedback_temperatures]; rewrite ?app_nil_r.
      + split; [exact Hsorted|]. split; [constructor; assumption|].
        destruct Ho as (_ & Ho2 & Ho3).
        split; [intros _; split;
                [exact (eq_trans (last_cons _ _ (feedback_temperatures e1)) Ho3)
                | exact Ho2]|].
        split; discriminate.
      + split; [exact Hsorted|]. split; [constructor; assumption|].
        split; [discriminate|]. split; discriminate.
      + contradiction.
      + split; [exact Hsorted|]. split; [constructor; assumption|].
        split; [discriminate|]. split; [intros _; exact Ho | discriminate]. }
  destruct Main as (Hsorted & Hbound & Hdone & Hactive & Hdef).
  split; [exact Hsorted|]. split; [|split; [|split; [exact Hdone|split; assumption]]].
  - intros Hlt. assert (E : (initial <? target) = true) by (apply Z.ltb_lt; exact Hlt).
    rewrite E in Hsorted, Hbound. split.
    + eapply Sorted_weaken; [|exact Hsorted]. exact approach_le.
    + eapply Forall_impl; [|exact Hbound]. unfold toward. cbn. intros v Hv. exact Hv.
  - intros Hlt. assert (E : (initial <? target) = false) by (apply Z.ltb_ge; lia).
    rewrite E in Hsorted, Hbound. split.
    + eapply Sorted_weaken; [|exact Hsorted]. exact approach_ge.
    + eapply Forall_impl; [|exact Hbound]. unfold toward. cbn. intros v Hv. lia.
Qed.

Lemma monotone_approach_witness :
  let s := mkState 18 true 1 0 in
  let up := accepted_set_temperature_action_callback env_stalling 10 (goal_handle 21) s in
  let down := accepted_set_temperature_action_callback env_stalling 10 (goal_handle 16) s in
  (18 :: feedback_temperatures (events_of up) = [18; 19; 19; 19; 20; 21]
   /\ Sorted Z.le (18 :: feedback_temperatures (events_of up))
   /\ current_temperature (state_of up) = 21)
  /\ (18 :: feedback_temperatures (events_of down) = [18; 17; 17; 17; 16]
      /\ Sorted Z.ge (18 :: feedback_temperatures (events_of down))
      /\ current_temperature (state_of down) = 16).
Proof.
  cbv zeta.
  assert (R : forall z, -32768 <= z <= 32767 -> Short.in_range z)
    by (intros z Hz; exact Hz).
  split.
  - destruct (monotone_approach env_stalling 10 (goal_handle 21) (mkState 18 true 1 0)
                (R 18 ltac:(lia)) (R 21 ltac:(lia)))
      as (_ & Hup & _ & Hdone & _).
    split; [reflexivity|]. split; [exact (proj1 (Hup eq_refl))|].
    exact (proj2 (Hdone eq_refl)).
  - destruct (monotone_approach env_stalling 10 (goal_handle 16) (mkState 18 true 1 0)
                (R 18 ltac:(lia)) (R 16 ltac:(lia)))
      as (_ & _ & Hdown & Hdone & _).
    split; [reflexivity|]. split; [exact (proj1 (Hdown eq_refl))|].
    exact (proj2 (Hdone eq_refl)).
Defined.

(** Within a task every progress value published lies between 0 and 100, so
    the integer type of the feedback's progress field does not matter. *)
Lemma progress_within_percent env fuel goalHandle s :
  Short.in_range (current_temperature s) ->
  Short.in_range (SetTemperature.Goal.temperature (get_goal goalHandle)) ->
  Forall (fun p => 0 <= p <= 100)
    (feedback_progresses
       (events_of (accepted_set_temperature_action_callback env fuel goalHandle s))).
Proof.
  intros Hs Hg.
  destruct (Z.eq_dec (SetTemperature.Goal.temperature (get_goal goalHandle))
              (current_temperature s)) as [Heq|Hne].
  - rewrite accepted_degenerate by exact Heq. constructor.
  - rewrite accepted_unfold.
    destruct (while_loop env fuel goalHandle (initial_locals goalHandle s) s)
      as [[flow s1] e1] eqn:Hrun.
    apply while_loop_run in Hrun; [|apply initial_locals_inv; assumption].
    destruct Hrun as (_ & _ & Hp & _).
    destruct flow as [[l| |]|]; unfold events_of; cbn [snd];
      rewrite ?feedback_progresses_app; cbn [feedback_progresses];
      rewrite ?app_nil_r; exact Hp.
Qed.

(** ** Termination *)

(** With no refusal and no cancellation the loop reaches the target within
    [|target - current|] passes. *)
Lemma while_loop_reaches_target env goalHandle :
  (forall n, refuses (rand_results env n) = false) ->
  (forall n, is_canceling_results env n = false) ->
  forall fuel l s,
    task_inv l s ->
    Z.abs (target_temperature l - _current_temperature l) <= Z.of_nat fuel ->
    exists l' s' es,
      while_loop env fuel goalHandle l s = (Some (Next l'), s', es)
      /\ current_temperature s' = target_temperature l.
Proof.
  intros Hwilling Hquiet.
  induction fuel as [|fuel IH]; intros l s Hinv Hdist;
    pose proof (inv_divisor _ _ Hinv) as Hd;
    pose proof (inv_current _ _ Hinv) as Hcur.
  - loop_base l; [|lia]. exists l, s, []. split; [reflexivity|]. congruence.
  - loop_pass env fuel l s.
    + exists l, s, []. split; [reflexivity|]. congruence.
    + rewrite Hquiet in Hcancel. discriminate.
    + rewrite Hwilling in Hrefuse. discriminate.
    + destruct (task_inv_performed l s Hinv Hne) as [Hid Hinv'].
      cbv zeta in Hid, Hinv'. rewrite Hid in Hrest.
      destruct (IH _ _ Hinv') as (l' & s' & es & Hrun & Hfinal).
      { cbn. pose proof (inv_to _ _ Hinv) as Hto. rewrite <- Hcur.
        unfold toward, delta in *. destruct (is_increment l); lia. }
      rewrite Hrun in Hrest. injection Hrest as <- <- <-.
      eexists _, _, _. split; [reflexivity|]. exact Hfinal.
Qed.

Lemma task_completes_when_unhindered env fuel goalHandle s :
  (forall n, refuses (rand_results env n) = false) ->
  (forall n, is_canceling_results env n = false) ->
  Short.in_range (current_temperature s) ->
  Short.in_range (SetTemperature.Goal.temperature (get_goal goalHandle)) ->
  Z.abs (SetTemperature.Goal.temperature (get_goal goalHandle) - current_temperature s)
    <= Z.of_nat fuel ->
  let r := accepted_set_temperature_action_callback env fuel goalHandle s in
  value_of r = Some ExitSucceeded
  /\ current_temperature (state_of r) =
       SetTemperature.Goal.temperature (get_goal goalHandle)
  /\ action_server_busy (state_of r) = false.
Proof.
  intros Hwilling Hquiet Hs Hg Hfuel r. subst r.
  destruct (Z.eq_dec (SetTemperature.Goal.temperature (get_goal goalHandle))
              (current_temperature s)) as [Heq|Hne].
  - rewrite accepted_degenerate by exact Heq. unfold value_of, state_of. cbn.
    repeat split. symmetry. exact Heq.
  - rewrite accepted_unfold.
    destruct (while_loop_reaches_target env goalHandle Hwilling Hquiet fuel
                (initial_locals goalHandle s) s) as (l' & s' & es & Hrun & Hfinal).
    + apply initial_locals_inv; assumption.
    + exact Hfuel.
    + rewrite Hrun. unfold value_of, state_of. cbn. repeat split. exact Hfinal.
Qed.

(** With every step refused and no cancellation the task never leaves its
    loop: it stalls at the initial temperature for any number of passes. *)
Lemma while_loop_stalls env goalHandle :
  (forall n, refuses (rand_results env n) = true) ->
  (forall n, is_canceling_results env n = false) ->
  forall fuel l s,
    in_step l s ->
    _current_temperature l <> target_temperature l ->
    exists s' es,
      while_loop env fuel goalHandle l s = (None, s', es)
      /\ current_temperature s' = current_temperature s.
Proof.
  intros Hrefusing Hquiet.
  induction fuel as [|fuel IH]; intros l s [Hcur Hd] Hne0.
  - loop_base l; [contradiction|]. exists s, []. split; reflexivity.
  - loop_pass env fuel l s.
    + contradiction.
    + rewrite Hquiet in Hcancel. discriminate.
    + destruct (IH (next_locals l (current_temperature s))
                  (after_rand 1 (after_poll s))) as (s' & es & Hrun & Hsame).
      { split; [reflexivity | exact Hd]. }
      { cbn. rewrite <- Hcur. exact Hne. }
      rewrite Hrun in Hrest. injection Hrest as <- <- <-.
      eexists _, _. split; [reflexivity|]. exact Hsame.
    + rewrite Hrefusing in Hrefuse. discriminate.
Qed.

(** * Further properties of the callbacks *)

(** ** Accounting for a run of the loop *)

Lemma while_loop_account env goalHandle fuel :
  forall l s o s' es,
    in_step l s ->
    while_loop env fuel goalHandle l s = (o, s', es) ->
    Forall (fun r => IncrementDecrementTemperature.Request.increment r = is_increment l)
      (sent_requests es)
    /\ List.length (published_feedback es) = List.length (sent_requests es)
    /\ feedback_progresses es = map (progress_of l) (feedback_temperatures es)
    /\ Forall (fun ms => 100 <= ms <= 499) (sleeps es)
    /\ is_canceling_calls s' =
         (List.length (sent_requests es) + cancel_polls o + is_canceling_calls s)%nat
    /\ rand_calls s' =
         (List.length (sent_requests es) + List.length (sleeps es) + rand_calls s)%nat
    /\ (Short.in_range (current_temperature s) ->
        Short.in_range (current_temperature s')
        /\ Forall Short.in_range (feedback_temperatures es))
    /\ published_data es = []
    /\ match o with
       | Some (Next l') =>
           _current_temperature l' = current_temperature s' /\ goal_reports es = []
       | Some Return =>
           goal_reports es =
             [GoalCanceled (SetTemperature.Result.make (current_temperature s'))]
       | Some DivisionByZero => False
       | None => goal_reports es = []
       end.
Proof.
  induction fuel as [|fuel IH]; intros l s o s' es [Hcur Hd].
  - loop_base l; intros [= <- <- <-]; cbn;
      do 8 (split; [solve [constructor | reflexivity | intros; assumption
                          | intros; split; [assumption | constructor]]|]);
      first [reflexivity | split; [assumption | reflexivity]].
  - loop_pass env fuel l s; intros [= <- <- <-].
    + cbn.
      do 8 (split; [solve [constructor | reflexivity | intros; assumption
                          | intros; split; [assumption | constructor]]|]).
      split; [assumption | reflexivity].
    + cbn.
      do 8 (split; [solve [constructor | reflexivity | intros; assumption
                          | intros; split; [assumption | constructor]]|]).
      rewrite Hcur. reflexivity.
    + apply IH in Hrest; [|split; [reflexivity | exact Hd]].
      change (progress_of (next_locals l (current_temperature s)))
        with (progress_of l) in Hrest.
      cbn in Hrest.
      destruct Hrest as (Hdir & Hlen & Hprog & Hsleep & Hpoll & Hrand & Hrange
                         & Hdata & Ho).
      cbn.
      refine (conj _ (conj _ (conj _ (conj Hsleep (conj _ (conj _
                (conj _ (conj Hdata _)))))))).
      * constructor; [reflexivity | exact Hdir].
      * f_equal. exact Hlen.
      * f_equal. exact Hprog.
      * rewrite Hpoll. lia.
      * rewrite Hrand. lia.
      * intros Hr. destruct (Hrange Hr) as [Hr1 Hr2].
        split; [exact Hr1 | constructor; assumption].
      * destruct o2 as [[l'| |]|]; exact Ho.
    + apply IH in Hrest; [|split; [reflexivity | exact Hd]].
      change (progress_of (next_locals l
                (Short.of_int (current_temperature s + delta (is_increment l)))))
        with (progress_of l) in Hrest.
      cbn in Hrest.
      destruct Hrest as (Hdir & Hlen & Hprog & Hsleep & Hpoll & Hrand & Hrange
                         & Hdata & Ho).
      cbn.
      refine (conj _ (conj _ (conj _ (conj _ (conj _ (conj _
                (conj _ (conj Hdata _)))))))).
      * constructor; [reflexivity | exact Hdir].
      * f_equal. exact Hlen.
      * f_equal. exact Hprog.
      * constructor; [apply sleep_milliseconds_bounds | exact Hsleep].
      * rewrite Hpoll. lia.
      * rewrite Hrand. lia.
      * intros _. destruct (Hrange (of_int_in_range _)) as [Hr1 Hr2].
        split; [exact Hr1 | constructor; [apply of_int_in_range | exact Hr2]].
      * destruct o2 as [[l'| |]|]; exact Ho.
Qed.

(** ** The services *)

(** X1.  The query service answers with the temperature of the last step
    response, whether that step was performed or refused; it changes nothing
    and causes no event. *)
Theorem query_after_step env request s :
  let step := increment_decrement_temperature_callback env request s in
  get_current_temperature_callback (state_of step) =
    (GetCurrentTemperature.Response.make
       (IncrementDecrementTemperature.Response.temperature (value_of step)),
     state_of step, []).
Proof.
  cbv zeta. destruct (step_response env request s) as (_ & _ & Ht & _).
  rewrite Ht. reflexivity.
Qed.

Lemma of_int_round_trip (t d : Z) :
  Short.in_range t -> Short.of_int (Short.of_int (t + d) - d) = t.
Proof.
  unfold Short.in_range, Short.of_int, Short.min, Short.max. intros H.
  replace ((t + d + 32768) mod 65536 - 32768 - d + 32768)
    with ((t + d + 32768) mod 65536 - d) by lia.
  rewrite Zminus_mod_idemp_l.
  replace (t + d + 32768 - d) with (t + 32768) by lia.
  rewrite Z.mod_small by lia. lia.
Qed.

(** X2.  A performed step followed by a performed step in the opposite
    direction restores the temperature, for every 16-bit temperature, the
    two ends of the range included. *)
Theorem opposite_steps_cancel env (is_increment : bool) s :
  Short.in_range (current_temperature s) ->
  refuses (rand_results env (rand_calls s)) = false ->
  refuses (rand_results env (2 + rand_calls s)) = false ->
  let s1 := state_of (increment_decrement_temperature_callback env
                        (step_request is_increment) s) in
  let s2 := state_of (increment_decrement_temperature_callback env
                        (step_request (negb is_increment)) s1) in
  current_temperature s2 = current_temperature s
  /\ rand_calls s2 = (4 + rand_calls s)%nat.
Proof.
  intros Hr H0 H2 s1 s2.
  assert (E1 : s1 = with_temperature
                      (Short.of_int (current_temperature s + delta is_increment))
                      (after_rand 2 s)).
  { subst s1. rewrite step_performed by exact H0. reflexivity. }
  assert (E2 : s2 = with_temperature
                      (Short.of_int (current_temperature s1 + delta (negb is_increment)))
                      (after_rand 2 s1)).
  { subst s2. rewrite step_performed by (rewrite E1; exact H2). reflexivity. }
  rewrite E2, E1. cbn. split; [|reflexivity].
  replace (delta (negb is_increment)) with (- delta is_increment)
    by (destruct is_increment; reflexivity).
  rewrite Z.add_opp_r. apply of_int_round_trip. exact Hr.
Qed.

Lemma opposite_steps_cancel_witness :
  let s := mkState 32767 false 0 0 in
  let s1 := state_of (increment_decrement_temperature_callback env_willing
                        (step_request true) s) in
  let s2 := state_of (increment_decrement_temperature_callback env_willing
                        (step_request false) s1) in
  current_temperature s1 = -32768
  /\ current_temperature s2 = 32767
  /\ rand_calls s2 = 4%nat.
Proof.
  cbv zeta. split; [reflexivity|].
  assert (R : -32768 <= 32767 <= 32767) by lia.
  exact (opposite_steps_cancel env_willing true (mkState 32767 false 0 0)
           R eq_refl eq_refl).
Defined.

(** X3.  A freshly constructed node accepts the first goal request; of two
    goal requests in a row, in any state, the second is rejected and leaves
    the state as the first left it. *)
Theorem goal_requests_in_a_row env uuid1 goal1 uuid2 goal2 s :
  value_of (handle_set_temperature_action_callback uuid1 goal1
              (TemperatureSystemsControllerNode env)) =
    GoalResponse.ACCEPT_AND_EXECUTE
  /\ let s1 := state_of (handle_set_temperature_action_callback uuid1 goal1 s) in
     handle_set_temperature_action_callback uuid2 goal2 s1 =
       (GoalResponse.REJECT, s1, []).
Proof.
  split; [reflexivity|]. cbv zeta. rewrite !handle_cases.
  destruct (action_server_busy s) eqn:E; unfold state_of; cbn; [rewrite E|];
    reflexivity.
Qed.

(** ** Accounting for the action callback *)

Lemma sleeps_app es1 es2 : sleeps (es1 ++ es2) = sleeps es1 ++ sleeps es2.
Proof.
  induction es1 as [|e es1 IH]; [reflexivity|].
  destruct e; cbn; rewrite IH; reflexivity.
Qed.

Lemma published_data_app es1 es2 :
  published_data (es1 ++ es2) = published_data es1 ++ published_data es2.
Proof.
  induction es1 as [|e es1 IH]; [reflexivity|].
  destruct e; cbn; rewrite IH; reflexivity.
Qed.

Lemma goal_reports_app es1 es2 :
  goal_reports (es1 ++ es2) = goal_reports es1 ++ goal_reports es2.
Proof.
  induction es1 as [|e es1 IH]; [reflexivity|].
  destruct e; cbn; rewrite IH; reflexivity.
Qed.

Lemma accepted_account env fuel goalHandle s :
  let r := accepted_set_temperature_action_callback env fuel goalHandle s in
  let es := events_of r in
  Forall (fun q => IncrementDecrementTemperature.Request.increment q =
                   (current_temperature s
                    <? SetTemperature.Goal.temperature (get_goal goalHandle)))
    (sent_requests es)
  /\ List.length (published_feedback es) = List.length (sent_requests es)
  /\ feedback_progresses es =
       map (progress_of (initial_locals goalHandle s)) (feedback_temperatures es)
  /\ Forall (fun ms => 100 <= ms <= 499) (sleeps es)
  /\ is_canceling_calls (state_of r) =
       (List.length (sent_requests es)
        + match value_of r with Some ExitCanceled => 1 | _ => 0 end
        + is_canceling_calls s)%nat
  /\ rand_calls (state_of r) =
       (List.length (sent_requests es) + List.length (sleeps es) + rand_calls s)%nat
  /\ (Short.in_range (current_temperature s) ->
      Short.in_range (current_temperature (state_of r))
      /\ Forall Short.in_range (feedback_temperatures es))
  /\ published_data es = []
  /\ goal_reports es =
       match value_of r with
       | Some ExitSucceeded =>
           [GoalSucceed (SetTemperature.Result.make (current_temperature (state_of r)))]
       | Some ExitCanceled =>
           [GoalCanceled (SetTemperature.Result.make (current_temperature (state_of r)))]
       | _ => []
       end
  /\ value_of r <> Some ExitUndefined.
Proof.
  intros r es. subst es r.
  destruct (Z.eq_dec (SetTemperature.Goal.temperature (get_goal goalHandle))
              (current_temperature s)) as [Heq|Hne].
  - rewrite accepted_degenerate by exact Heq.
    unfold value_of, state_of, events_of. cbn.
    do 6 (split; [solve [constructor | reflexivity]|]).
    split; [intros H; split; [exact H | constructor]|].
    split; [reflexivity|]. split; [reflexivity | discriminate].
  - rewrite accepted_unfold.
    destruct (while_loop env fuel goalHandle (initial_locals goalHandle s) s)
      as [[flow s1] e1] eqn:Hrun.
    apply while_loop_account in Hrun; [|split; [reflexivity | exact Hne]].
    cbn [initial_locals is_increment] in Hrun.
    destruct Hrun as (Hdir & Hlen & Hprog & Hsleep & Hpoll & Hrand & Hrange
                      & Hdata & Ho).
    destruct flow as [[l| |]|]; unfold value_of, state_of, events_of;
      cbn [fst snd];
      rewrite ?sent_requests_app, ?published_feedback_app, ?feedback_progresses_app,
        ?feedback_temperatures_app, ?sleeps_app, ?published_data_app,
        ?goal_reports_app;
      cbn [sent_requests published_feedback feedback_progresses
             feedback_temperatures sleeps published_data goal_reports];
      rewrite ?app_nil_r;
      cbn [cancel_polls] in Hpoll.
    + destruct Ho as [Hl Hrep].
      refine (conj Hdir (conj Hlen (conj Hprog (conj Hsleep (conj Hpoll
                (conj Hrand (conj Hrange (conj Hdata (conj _ _))))))))).
      * rewrite Hrep, Hl. reflexivity.
      * discriminate.
    + refine (conj Hdir (conj Hlen (conj Hprog (conj Hsleep (conj Hpoll
                (conj Hrand (conj Hrange (conj Hdata (conj Ho _))))))))).
      discriminate.
    + contradiction.
    + refine (conj Hdir (conj Hlen (conj Hprog (conj Hsleep (conj Hpoll
                (conj Hrand (conj Hrange (conj Hdata (conj Ho _))))))))).
      discriminate.
Qed.

Lemma while_loop_counts env goalHandle fuel :
  forall l s o s' es,
    in_step l s ->
    while_loop env fuel goalHandle l s = (o, s', es) ->
    (List.length (sleeps es) <= List.length (sent_requests es) <= fuel)%nat.
Proof.
  induction fuel as [|fuel IH]; intros l s o s' es [Hcur Hd].
  - loop_base l; intros [= <- <- <-]; cbn; lia.
  - loop_pass env fuel l s; intros [= <- <- <-]; cbn; try lia;
      apply IH in Hrest; try (split; [reflexivity | exact Hd]); lia.
Qed.

Lemma accepted_counts env fuel goalHandle s :
  let es := events_of (accepted_set_temperature_action_callback env fuel goalHandle s) in
  (List.length (sleeps es) <= List.length (sent_requests es) <= fuel)%nat.
Proof.
  cbv zeta.
  destruct (Z.eq_dec (SetTemperature.Goal.temperature (get_goal goalHandle))
              (current_temperature s)) as [Heq|Hne].
  - rewrite accepted_degenerate by exact Heq. cbn. lia.
  - rewrite accepted_unfold.
    destruct (while_loop env fuel goalHandle (initial_locals goalHandle s) s)
      as [[flow s1] e1] eqn:Hrun.
    apply while_loop_counts in Hrun; [|split; [reflexivity | exact Hne]].
    destruct flow as [[l| |]|]; unfold events_of; cbn [snd];
      rewrite ?sleeps_app, ?sent_requests_app; cbn [sleeps sent_requests];
      rewrite ?app_nil_r; exact Hrun.
Qed.

(** X4.  Every request a task sends to the step service asks for the same
    direction, increment exactly when the temperature at the start of the
    task is below the target, refusals or not; the task publishes one
    feedback message for each request it sends, and it sends at most one
    request in each pass of its loop. *)
Theorem task_requests env fuel goalHandle s :
  let es := events_of (accepted_set_temperature_action_callback env fuel goalHandle s) in
  Forall (fun q => q = step_request
                         (current_temperature s
                          <? SetTemperature.Goal.temperature (get_goal goalHandle)))
    (sent_requests es)
  /\ List.length (published_feedback es) = List.length (sent_requests es)
  /\ (List.length (sent_requests es) <= fuel)%nat.
Proof.
  cbv zeta.
  destruct (accepted_account env fuel goalHandle s) as (Hdir & Hlen & _).
  split; [|split; [exact Hlen | apply accepted_counts]].
  eapply Forall_impl; [|exact Hdir]. intros [q] Hq. cbn in Hq. rewrite Hq.
  reflexivity.
Qed.

(** X5.  The random numbers a task draws are one for each request it sends
    and one more for each step performed; the cancellation polls it makes are
    one for each request, and one more if it ends by cancellation.  So a task
    that succeeds never saw a cancellation, and it did not poll after the pass
    that reached the target. *)
Theorem task_draws_and_polls env fuel goalHandle s :
  let r := accepted_set_temperature_action_callback env fuel goalHandle s in
  rand_calls (state_of r) =
    (List.length (sent_requests (events_of r)) + List.length (sleeps (events_of r))
     + rand_calls s)%nat
  /\ is_canceling_calls (state_of r) =
       (List.length (sent_requests (events_of r))
        + match value_of r with Some ExitCanceled => 1 | _ => 0 end
        + is_canceling_calls s)%nat
  /\ (List.length (sleeps (events_of r)) <= List.length (sent_requests (events_of r)))%nat.
Proof.
  cbv zeta.
  destruct (accepted_account env fuel goalHandle s)
    as (_ & _ & _ & _ & Hpoll & Hrand & _).
  split; [exact Hrand|]. split; [exact Hpoll | apply accepted_counts].
Qed.

(** X6.  A task reports a result exactly once, as it ends, by [succeed] or by
    [canceled]; the result carries the temperature the node has at that
    moment, which is what the query service answers next.  A task still in
    its loop has reported no result. *)
Theorem task_result_matches_query env fuel goalHandle s :
  let r := accepted_set_temperature_action_callback env fuel goalHandle s in
  let answer := GetCurrentTemperature.Response.temperature
                  (value_of (get_current_temperature_callback (state_of r))) in
  goal_reports (events_of r) =
    match value_of r with
    | Some ExitSucceeded => [GoalSucceed (SetTemperature.Result.make answer)]
    | Some ExitCanceled => [GoalCanceled (SetTemperature.Result.make answer)]
    | _ => []
    end
  /\ value_of r <> Some ExitUndefined.
Proof.
  cbv zeta.
  destruct (accepted_account env fuel goalHandle s)
    as (_ & _ & _ & _ & _ & _ & _ & _ & Hrep & Hdef).
  split; [exact Hrep | exact Hdef].
Qed.

(** ** The temperature stays a 16-bit value *)

Lemma invoke_in_range env c s :
  Short.in_range (current_temperature s) ->
  Short.in_range (current_temperature (state_of (invoke env c s)))
  /\ Forall Short.in_range (published_data (events_of (invoke env c s)))
  /\ Forall Short.in_range (feedback_temperatures (events_of (invoke env c s))).
Proof.
  intros Hr. destruct c as [| |request|uuid goal|goalHandle|fuel goalHandle].
  - cbn. split; [exact Hr|]. split; [|constructor].
    constructor; [exact Hr | constructor].
  - cbn. split; [exact Hr|]. split; constructor.
  - unfold invoke, bind.
    destruct (refuses (rand_results env (rand_calls s))) eqn:H.
    + rewrite step_refused by exact H. cbn.
      split; [exact Hr|]. split; constructor.
    + rewrite step_performed by exact H. cbn.
      split; [apply of_int_in_range|]. split; constructor.
  - unfold invoke, bind. rewrite handle_cases.
    destruct (action_server_busy s); cbn; (split; [exact Hr|]); split; constructor.
  - cbn. split; [exact Hr|]. split; constructor.
  - unfold invoke, bind.
    destruct (accepted_account env fuel goalHandle s)
      as (_ & _ & _ & _ & _ & _ & Hrange & Hdata & _).
    destruct (Hrange Hr) as [H1 H2].
    destruct (accepted_set_temperature_action_callback env fuel goalHandle s)
      as [[o s1] e1].
    unfold state_of, events_of in *. cbn [fst snd ret] in *.
    rewrite app_nil_r, Hdata. split; [exact H1|]. split; [constructor | exact H2].
Qed.

(** X7.  From the constructor on, whatever callbacks are invoked and in
    whatever order, the node's temperature is a 16-bit value, and so is every
    value the monitor timer publishes and every temperature a feedback
    message carries. *)
Theorem temperature_stays_short env cs :
  let r := invoke_all env cs (TemperatureSystemsControllerNode env) in
  Short.in_range (current_temperature (state_of r))
  /\ Forall Short.in_range (published_data (events_of r))
  /\ Forall Short.in_range (feedback_temperatures (events_of r)).
Proof.
  cbv zeta.
  assert (G : forall cs s,
            Short.in_range (current_temperature s) ->
            Short.in_range (current_temperature (state_of (invoke_all env cs s)))
            /\ Forall Short.in_range (published_data (events_of (invoke_all env cs s)))
            /\ Forall Short.in_range
                 (feedback_temperatures (events_of (invoke_all env cs s)))).
  { clear. induction cs as [|c cs IH]; intros s Hr.
    - cbn. split; [exact Hr|]. split; constructor.
    - cbn [invoke_all]. unfold bind.
      destruct (invoke_in_range env c s Hr) as (H1 & H2 & H3).
      destruct (invoke env c s) as [[u s1] e1].
      unfold state_of, events_of in H1, H2, H3. cbn [fst snd] in H1, H2, H3.
      destruct (IH s1 H1) as (K1 & K2 & K3).
      destruct (invoke_all env cs s1) as [[u2 s2] e2].
      unfold state_of, events_of in *. cbn [fst snd] in *.
      rewrite published_data_app, feedback_temperatures_app.
      split; [exact K1|]. split; apply Forall_app; split; assumption. }
  apply G.
  pose proof (initial_temperature_bounds env) as H.
  unfold Short.in_range, Short.min, Short.max. lia.
Qed.

(** ** Steps performed, and how far the temperature moved *)

Lemma while_loop_displacement env goalHandle fuel :
  forall l s o s' es,
    task_inv l s ->
    while_loop env fuel goalHandle l s = (o, s', es) ->
    current_temperature s' =
      current_temperature s + delta (is_increment l) * Z.of_nat (List.length (sleeps es)).
Proof.
  induction fuel as [|fuel IH]; intros l s o s' es Hinv;
    pose proof (inv_divisor _ _ Hinv) as Hd.
  - loop_base l; intros [= <- <- <-]; cbn; lia.
  - loop_pass env fuel l s; intros [= <- <- <-]; try (cbn; lia).
    + apply IH in Hrest; [|apply task_inv_refused; exact Hinv].
      cbn in Hrest. cbn. exact Hrest.
    + destruct (task_inv_performed l s Hinv Hne) as [Hid Hinv'].
      cbv zeta in Hid, Hinv'. rewrite Hid in Hrest.
      apply IH in Hrest; [|exact Hinv'].
      cbn [next_locals is_increment with_temperature current_temperature] in Hrest.
      cbn [sleeps List.length]. rewrite Hrest, Nat2Z.inj_succ.
      unfold delta. destruct (is_increment l); lia.
Qed.

Lemma total_bounds (l : list Z) :
  Forall (fun ms => 100 <= ms <= 499) l ->
  100 * Z.of_nat (List.length l) <= total l <= 499 * Z.of_nat (List.length l).
Proof.
  induction 1 as [|ms l Hms Hl IH]; [cbn; lia|].
  cbn [total fold_right List.length]. fold (total l). rewrite Nat2Z.inj_succ. lia.
Qed.

Lemma accepted_run env fuel goalHandle s :
  Short.in_range (current_temperature s) ->
  Short.in_range (SetTemperature.Goal.temperature (get_goal goalHandle)) ->
  let initial := current_temperature s in
  let target := SetTemperature.Goal.temperature (get_goal goalHandle) in
  let r := accepted_set_temperature_action_callback env fuel goalHandle s in
  Sorted (approach (initial <? target))
    (initial :: feedback_temperatures (events_of r))
  /\ (value_of r = Some ExitSucceeded ->
      last (feedback_temperatures (events_of r)) initial = target
      /\ current_temperature (state_of r) = target)
  /\ current_temperature (state_of r) =
       initial + delta (initial <? target)
                 * Z.of_nat (List.length (sleeps (events_of r))).
Proof.
  intros Hs Hg initial target r. subst r.
  destruct (Z.eq_dec target initial) as [Heq|Hne].
  - rewrite accepted_degenerate by exact Heq.
    unfold value_of, state_of, events_of. cbn. fold initial.
    split; [repeat constructor|]. split; [|lia].
    intros _. split; symmetry; exact Heq.
  - rewrite accepted_unfold.
    destruct (while_loop env fuel goalHandle (initial_locals goalHandle s) s)
      as [[flow s1] e1] eqn:Hrun.
    pose proof (while_loop_run env goalHandle fuel _ _ _ _ _
                  (initial_locals_inv goalHandle s Hs Hg Hne) Hrun) as Hfacts.
    pose proof (while_loop_displacement env goalHandle fuel _ _ _ _ _
                  (initial_locals_inv goalHandle s Hs Hg Hne) Hrun) as Hmoved.
    cbn [initial_locals is_increment _current_temperature target_temperature]
      in Hfacts, Hmoved.
    fold initial in Hfacts, Hmoved. fold target in Hfacts, Hmoved.
    destruct Hfacts as (Hsorted & _ & _ & _ & Ho).
    destruct flow as [[l| |]|]; unfold value_of, state_of, events_of;
      cbn [fst snd]; rewrite ?feedback_temperatures_app, ?sleeps_app;
      cbn [feedback_temperatures sleeps with_busy current_temperature];
      rewrite ?app_nil_r.
    + destruct Ho as (_ & Ho2 & Ho3).
      split; [exact Hsorted|]. split; [intros _; split; assumption | exact Hmoved].
    + split; [exact Hsorted|]. split; [discriminate | exact Hmoved].
    + contradiction.
    + split; [exact Hsorted|]. split; [discriminate | exact Hmoved].
Qed.

(** X8.  The temperature a task leaves behind is the one it started from,
    moved by one unit towards the target for each step performed (each sleep).
    A task that succeeds has performed exactly [|target - initial|] steps, and
    the time it slept is between 100 and 499 milliseconds for each of them. *)
Theorem task_steps_performed env fuel goalHandle s :
  Short.in_range (current_temperature s) ->
  Short.in_range (SetTemperature.Goal.temperature (get_goal goalHandle)) ->
  let initial := current_temperature s in
  let target := SetTemperature.Goal.temperature (get_goal goalHandle) in
  let r := accepted_set_temperature_action_callback env fuel goalHandle s in
  let steps := Z.of_nat (List.length (sleeps (events_of r))) in
  current_temperature (state_of r) =
    initial + (if initial <? target then 1 else -1) * steps
  /\ (value_of r = Some ExitSucceeded -> steps = Z.abs (target - initial))
  /\ 100 * steps <= total (sleeps (events_of r)) <= 499 * steps.
Proof.
  intros Hs Hg initial target r steps.
  destruct (accepted_run env fuel goalHandle s Hs Hg) as (_ & Hdone & Hmoved).
  destruct (accepted_account env fuel goalHandle s) as (_ & _ & _ & Hsleep & _).
  fold initial target r in Hdone, Hmoved. fold r in Hsleep. fold steps in Hmoved.
  split; [exact Hmoved|]. split.
  - intros Hok. destruct (Hdone Hok) as [_ Hfinal].
    rewrite Hfinal in Hmoved. unfold delta in Hmoved.
    destruct (Z.ltb_spec initial target); subst steps; lia.
  - apply total_bounds. exact Hsleep.
Qed.

Lemma task_steps_performed_witness :
  let r := accepted_set_temperature_action_callback env_stalling 10 (goal_handle 21)
             (mkState 18 true 1 0) in
  value_of r = Some ExitSucceeded
  /\ sleeps (events_of r) = [107; 109; 101]
  /\ current_temperature (state_of r) = 18 + 1 * 3
  /\ 3 = Z.abs (21 - 18)
  /\ 100 * 3 <= total (sleeps (events_of r)) <= 499 * 3.
Proof.
  cbv zeta.
  assert (R : forall z, -32768 <= z <= 32767 -> Short.in_range z)
    by (intros z Hz; exact Hz).
  destruct (task_steps_performed env_stalling 10 (goal_handle 21) (mkState 18 true 1 0)
              (R 18 ltac:(lia)) (R 21 ltac:(lia))) as (H1 & H2 & H3).
  split; [reflexivity|]. split; [reflexivity|]. split; [exact H1|].
  split; [exact (H2 eq_refl) | exact H3].
Defined.

(** ** Progress *)

Lemma progress_of_mono l a b :
  target_temperature l <> initial_temperature l ->
  toward (is_increment l) (initial_temperature l) (target_temperature l) ->
  toward (is_increment l) a b ->
  progress_of l a <= progress_of l b.
Proof.
  unfold progress_of, toward. intros Hd Hdir Hab.
  destruct (is_increment l).
  - apply Z.quot_le_mono; lia.
  - replace (target_temperature l - initial_temperature l)
      with (- (initial_temperature l - target_temperature l)) by lia.
    rewrite !Z.quot_opp_r by lia.
    apply Z.opp_le_mono. rewrite !Z.opp_involutive.
    apply Z.quot_le_mono; lia.
Qed.

Lemma Sorted_map {A B : Type} (R : A -> A -> Prop) (R' : B -> B -> Prop)
    (f : A -> B) (l : list A) :
  (forall a b, R a b -> R' (f a) (f b)) -> Sorted R l -> Sorted R' (map f l).
Proof.
  intros HR H. induction H as [|a l Hs IH Hh]; cbn; constructor.
  - exact IH.
  - destruct Hh; cbn; constructor. apply HR. assumption.
Qed.

Lemma last_map {A B : Type} (f : A -> B) (l : list A) (d : A) :
  last (map f l) (f d) = f (last l d).
Proof.
  induction l as [|a l IH]; [reflexivity|].
  destruct l as [|b l]; [reflexivity|]. exact IH.
Qed.

(** X9.  The progress values a task publishes lie between 0 and 100 and never
    decrease from one feedback message to the next, in both directions. *)
Theorem progress_never_decreases env fuel goalHandle s :
  Short.in_range (current_temperature s) ->
  Short.in_range (SetTemperature.Goal.temperature (get_goal goalHandle)) ->
  let es := events_of (accepted_set_temperature_action_callback env fuel goalHandle s) in
  Sorted Z.le (feedback_progresses es)
  /\ Forall (fun p => 0 <= p <= 100) (feedback_progresses es).
Proof.
  intros Hs Hg es. split; [|apply progress_within_percent; assumption].
  destruct (Z.eq_dec (SetTemperature.Goal.temperature (get_goal goalHandle))
              (current_temperature s)) as [Heq|Hne].
  { subst es. rewrite accepted_degenerate by exact Heq. constructor. }
  destruct (accepted_run env fuel goalHandle s Hs Hg) as (Hsorted & _).
  destruct (accepted_account env fuel goalHandle s) as (_ & _ & Hprog & _).
  fold es in Hsorted, Hprog. rewrite Hprog.
  apply Sorted_inv in Hsorted. destruct Hsorted as [Hsorted _].
  eapply Sorted_map; [|exact Hsorted].
  intros a b Hab. apply progress_of_mono; cbn.
  - exact Hne.
  - unfold toward.
    destruct (Z.ltb_spec (current_temperature s)
                (SetTemperature.Goal.temperature (get_goal goalHandle))); lia.
  - unfold approach, toward, delta in *.
    destruct (current_temperature s
              <? SetTemperature.Goal.temperature (get_goal goalHandle)); lia.
Qed.

Lemma progress_never_decreases_witness :
  let es := events_of (accepted_set_temperature_action_callback env_stalling 10
                         (goal_handle 16) (mkState 18 true 1 0)) in
  feedback_progresses es = [50; 50; 50; 100]
  /\ Sorted Z.le (feedback_progresses es)
  /\ Forall (fun p => 0 <= p <= 100) (feedback_progresses es).
Proof.
  cbv zeta. split; [reflexivity|].
  assert (R : forall z, -32768 <= z <= 32767 -> Short.in_range z)
    by (intros z Hz; exact Hz).
  exact (progress_never_decreases env_stalling 10 (goal_handle 16) (mkState 18 true 1 0)
           (R 18 ltac:(lia)) (R 16 ltac:(lia))).
Defined.

(** X10.  Each feedback message carries the progress that belongs to its
    temperature, [(temperature - initial) * 100 / (target - initial)]; when a
    task whose target differs from the initial temperature succeeds, its last
    feedback message carries the target and progress 100. *)
Theorem final_progress env fuel goalHandle s :
  Short.in_range (current_temperature s) ->
  Short.in_range (SetTemperature.Goal.temperature (get_goal goalHandle)) ->
  SetTemperature.Goal.temperature (get_goal goalHandle) <> current_temperature s ->
  let initial := current_temperature s in
  let target := SetTemperature.Goal.temperature (get_goal goalHandle) in
  let r := accepted_set_temperature_action_callback env fuel goalHandle s in
  feedback_progresses (events_of r) =
    map (fun t => Z.quot ((t - initial) * 100) (target - initial))
        (feedback_temperatures (events_of r))
  /\ (value_of r = Some ExitSucceeded ->
      last (feedback_temperatures (events_of r)) initial = target
      /\ last (feedback_progresses (events_of r)) 0 = 100).
Proof.
  intros Hs Hg Hne initial target r.
  destruct (accepted_run env fuel goalHandle s Hs Hg) as (_ & Hdone & _).
  destruct (accepted_account env fuel goalHandle s) as (_ & _ & Hprog & _).
  fold initial target r in Hdone. fold r in Hprog.
  split; [exact Hprog|].
  intros Hok. destruct (Hdone Hok) as [Hlast _]. split; [exact Hlast|].
  rewrite Hprog.
  replace 0 with (progress_of (initial_locals goalHandle s) initial).
  - rewrite last_map, Hlast. unfold progress_of. cbn. fold initial target.
    rewrite Z.mul_comm. apply Z.quot_mul. lia.
  - unfold progress_of. cbn. fold initial. rewrite Z.sub_diag. reflexivity.
Qed.

Lemma final_progress_witness :
  let r := accepted_set_temperature_action_callback env_stalling 10 (goal_handle 21)
             (mkState 18 true 1 0) in
  value_of r = Some ExitSucceeded
  /\ feedback_progresses (events_of r) = [33; 33; 33; 66; 100]
  /\ last (feedback_temperatures (events_of r)) 18 = 21
  /\ last (feedback_progresses (events_of r)) 0 = 100.
Proof.
  cbv zeta.
  assert (R : forall z, -32768 <= z <= 32767 -> Short.in_range z)
    by (intros z Hz; exact Hz).
  destruct (final_progress env_stalling 10 (goal_handle 21) (mkState 18 true 1 0)
              (R 18 ltac:(lia)) (R 21 ltac:(lia)) ltac:(cbn; discriminate))
    as (_ & H2).
  split; [reflexivity|]. split; [reflexivity|]. exact (H2 eq_refl).
Defined.

(** ** Liveness and stalling *)

Lemma while_loop_reaches_target_own_draws env goalHandle :
  forall fuel l s,
    task_inv l s ->
    (Z.to_nat (Z.abs (target_temperature l - _current_temperature l)) <= fuel)%nat ->
    (forall i,
       (i < Z.to_nat (Z.abs (target_temperature l - _current_temperature l)))%nat ->
       refuses (rand_results env (2 * i + rand_calls s)) = false) ->
    (forall i,
       (i < Z.to_nat (Z.abs (target_temperature l - _current_temperature l)))%nat ->
       is_canceling_results env (i + is_canceling_calls s) = false) ->
    exists l' s' es,
      while_loop env fuel goalHandle l s = (Some (Next l'), s', es)
      /\ current_temperature s' = target_temperature l.
Proof.
  induction fuel as [|fuel IH]; intros l s Hinv Hfuel Hwilling Hquiet;
    pose proof (inv_divisor _ _ Hinv) as Hd;
    pose proof (inv_current _ _ Hinv) as Hcur.
  - loop_base l; [|lia]. exists l, s, []. split; [reflexivity|]. congruence.
  - loop_pass env fuel l s.
    + exists l, s, []. split; [reflexivity|]. congruence.
    + assert (Hfalse : is_canceling_results env (is_canceling_calls s) = false)
        by (apply (Hquiet 0%nat); lia).
      congruence.
    + assert (Hfalse : refuses (rand_results env (rand_calls s)) = false)
        by (apply (Hwilling 0%nat); lia).
      congruence.
    + destruct (task_inv_performed l s Hinv Hne) as [Hid Hinv'].
      cbv zeta in Hid, Hinv'. rewrite Hid in Hrest.
      pose proof (inv_to _ _ Hinv) as Hto.
      assert (Hdist :
        Z.to_nat (Z.abs (target_temperature l
                         - (current_temperature s + delta (is_increment l)))) =
        (Z.to_nat (Z.abs (target_temperature l - _current_temperature l)) - 1)%nat).
      { rewrite <- Hcur. unfold toward, delta in *. destruct (is_increment l); lia. }
      destruct (IH _ _ Hinv') as (l' & s' & es & Hrun & Hfinal).
      * cbn [next_locals target_temperature _current_temperature].
        rewrite Hdist. lia.
      * cbn [next_locals target_temperature _current_temperature].
        rewrite Hdist. intros i Hi.
        match goal with
        | |- refuses (rand_results env ?k) = false =>
            replace k with (2 * S i + rand_calls s)%nat by (cbn; lia)
        end.
        apply Hwilling. lia.
      * cbn [next_locals target_temperature _current_temperature].
        rewrite Hdist. intros i Hi.
        match goal with
        | |- is_canceling_results env ?k = false =>
            replace k with (S i + is_canceling_calls s)%nat by (cbn; lia)
        end.
        apply Hquiet. lia.
      * rewrite Hrun in Hrest. injection Hrest as <- <- <-.
        eexists _, _, _. split; [reflexivity|]. exact Hfinal.
Qed.

(** X11.  Let [n = |target - initial|].  If none of the task's first [n]
    step requests is refused (the refusal draws are every second [rand()]
    result from the task's start on; the sleep draws in between are free) and
    none of its first [n] cancellation polls shows a cancellation, a task
    given at least [n] passes succeeds: the temperature is the target, the
    busy flag is clear, and exactly [n] steps were performed. *)
Theorem unhindered_task_succeeds env fuel goalHandle s :
  let n := Z.to_nat (Z.abs (SetTemperature.Goal.temperature (get_goal goalHandle)
                            - current_temperature s)) in
  (forall i, (i < n)%nat ->
             refuses (rand_results env (2 * i + rand_calls s)) = false) ->
  (forall i, (i < n)%nat ->
             is_canceling_results env (i + is_canceling_calls s) = false) ->
  Short.in_range (current_temperature s) ->
  Short.in_range (SetTemperature.Goal.temperature (get_goal goalHandle)) ->
  (n <= fuel)%nat ->
  let r := accepted_set_temperature_action_callback env fuel goalHandle s in
  value_of r = Some ExitSucceeded
  /\ current_temperature (state_of r) =
       SetTemperature.Goal.temperature (get_goal goalHandle)
  /\ action_server_busy (state_of r) = false
  /\ List.length (sleeps (events_of r)) = n.
Proof.
  intros n Hwilling Hquiet Hs Hg Hfuel r.
  assert (Hrun : value_of r = Some ExitSucceeded
                 /\ current_temperature (state_of r) =
                      SetTemperature.Goal.temperature (get_goal goalHandle)
                 /\ action_server_busy (state_of r) = false).
  { subst r.
    destruct (Z.eq_dec (SetTemperature.Goal.temperature (get_goal goalHandle))
                (current_temperature s)) as [Heq|Hne].
    - rewrite accepted_degenerate by exact Heq. unfold value_of, state_of. cbn.
      repeat split. symmetry. exact Heq.
    - rewrite accepted_unfold.
      destruct (while_loop_reaches_target_own_draws env goalHandle fuel
                  (initial_locals goalHandle s) s)
        as (l' & s' & es & Hloop & Hfinal).
      + apply initial_locals_inv; assumption.
      + exact Hfuel.
      + exact Hwilling.
      + exact Hquiet.
      + rewrite Hloop. unfold value_of, state_of. cbn. repeat split. exact Hfinal. }
  destruct Hrun as (Hok & Hfinal & Hbusy).
  destruct (accepted_run env fuel goalHandle s Hs Hg) as (_ & _ & Hmoved).
  fold r in Hmoved.
  split; [exact Hok|]. split; [exact Hfinal|]. split; [exact Hbusy|].
  rewrite Hfinal in Hmoved. unfold delta in Hmoved. subst n.
  destruct (Z.ltb_spec (current_temperature s)
              (SetTemperature.Goal.temperature (get_goal goalHandle))); lia.
Qed.

Lemma unhindered_task_succeeds_witness :
  let r := accepted_set_temperature_action_callback env_even_sleeps 3 (goal_handle 17)
             (mkState 20 true 0 0) in
  value_of r = Some ExitSucceeded
  /\ current_temperature (state_of r) = 17
  /\ action_server_busy (state_of r) = false
  /\ sleeps (events_of r) = [100; 100; 100]
  /\ List.length (sleeps (events_of r)) = 3%nat.
Proof.
  cbv zeta.
  assert (R : forall z, -32768 <= z <= 32767 -> Short.in_range z)
    by (intros z Hz; exact Hz).
  assert (W : forall i, (i < 3)%nat ->
                        refuses (rand_results env_even_sleeps (2 * i + 0)) = false).
  { intros i Hi. destruct i as [|[|[|i]]]; try reflexivity. lia. }
  destruct (unhindered_task_succeeds env_even_sleeps 3 (goal_handle 17)
              (mkState 20 true 0 0) W (fun _ _ => eq_refl)
              (R 20 ltac:(lia)) (R 17 ltac:(lia)) (le_n 3))
    as (H1 & H2 & H3 & H4).
  split; [exact H1|]. split; [exact H2|]. split; [exact H3|].
  split; [reflexivity | exact H4].
Defined.



